(** * AutoDeploy agent: the orchestration logic of [src/App.tsx]

    The component [App] keeps four pieces of React state ([input],
    [isProcessing], [messages], [steps]) and drives them from three kinds of
    event: the text field's [onChange], a click / Enter key that calls
    [handleSend], and the timers armed by [delay].  This file embeds that
    logic and proves the properties of the step state machine and of the
    message timeline.

    Modelling choices, all of them visible in the definitions below:
    - a JavaScript string is a [string]; each character is read as one code
      unit below 256, where the ECMAScript white space and line terminator
      code points are 9 to 13, 32 and 160;
    - [Date.now()] and [new Date()] read a clock owned by the environment:
      every synchronous block receives a function [clk] giving its successive
      readings, so nothing is assumed about how fast time passes;
    - an [async] function is a tree of primitive operations ([Async]); running
      it stops at the first [await delay(ms)] and leaves the rest of the
      function as a pending timer of the system;
    - every [setX] call is applied to the state in program order (the order of
      React's updater queue) and recorded in a trace together with the state
      it produces;
    - [handleSend] reads [input] and [isProcessing] of the state in which the
      event is delivered (the render whose closure handles the event). *)

From Stdlib Require Import List String Ascii ZArith NArith Bool Lia.
From Stdlib Require Import DecimalString DecimalZ DecimalPos.
Import ListNotations.

Local Open Scope string_scope.
Local Open Scope list_scope.
Local Open Scope Z_scope.

(** ** JavaScript primitives used by the component *)

Module JS.

(** [Number.prototype.toString] on an integer: its decimal numeral. *)
Definition toString (n : Z) : string := NilZero.string_of_int (Z.to_int n).

(** WhiteSpace and LineTerminator code units below 256. *)
Definition isWhiteSpace (c : ascii) : bool :=
  let n := N_of_ascii c in
  ((9 <=? n) && (n <=? 13) || (n =? 32) || (n =? 160))%N.

Fixpoint trimStart (s : string) : string :=
  match s with
  | EmptyString => EmptyString
  | String c r => if isWhiteSpace c then trimStart r else s
  end.

Fixpoint trimEnd (s : string) : string :=
  match s with
  | EmptyString => EmptyString
  | String c r =>
      match trimEnd r with
      | EmptyString => if isWhiteSpace c then EmptyString else String c EmptyString
      | r' => String c r'
      end
  end.

(** [String.prototype.trim]. *)
Definition trim (s : string) : string := trimEnd (trimStart s).

(** ToBoolean on a string: only the empty string is falsy. *)
Definition truthy (s : string) : bool :=
  match s with
  | EmptyString => false
  | String _ _ => true
  end.

(** The double quote character of the template literal in
    [simulateAgentProcess]. *)
Definition dquote : string := String "034"%char EmptyString.

End JS.

(** ** Types *)

Inductive Role : Type := user | agent | system.

Inductive MessageType : Type := text | code | status.

Inductive Status : Type := pending | active | completed | failed.

Module Message.
Record t : Type := mk
  { id : string;
    role : Role;
    content : string;
    timestamp : Z;
    type : option MessageType }.
End Message.

Module Step.
Record t : Type := mk
  { id : string;
    label : string;
    status : Status }.

(** The object spread [{ ...s, status }]. *)
Definition with_status (s : t) (st : Status) : t :=
  mk (id s) (label s) st.
End Step.

Definition Status_eqb (a b : Status) : bool :=
  match a, b with
  | pending, pending | active, active
  | completed, completed | failed, failed => true
  | _, _ => false
  end.

(** ** Component state *)

Record World : Type := mkWorld
  { input : string;
    isProcessing : bool;
    messages : list Message.t;
    steps : list Step.t }.

(** The arguments of the four [useState] calls; [t0] is the reading of
    [new Date()] at mount. *)
Definition initialMessages (t0 : Z) : list Message.t :=
  [ Message.mk "1" system
      "AutoDeploy Agent v1.0 initialized. Ready for instructions."
      t0 (Some status) ].

Definition initialSteps : list Step.t :=
  [ Step.mk "1" "Analyze Request" pending;
    Step.mk "2" "Generate Architecture" pending;
    Step.mk "3" "Write Code" pending;
    Step.mk "4" "Deploy to Edge" pending ].

Definition initialWorld (t0 : Z) : World :=
  mkWorld EmptyString false (initialMessages t0) initialSteps.

(** ** Asynchronous programs over the component state *)

Inductive Async (A : Type) : Type :=
| Ret (a : A)
| GetInput (k : string -> Async A)
| GetIsProcessing (k : bool -> Async A)
| SetInput (s : string) (k : Async A)
| SetIsProcessing (b : bool) (k : Async A)
| SetMessages (f : list Message.t -> list Message.t) (k : Async A)
| SetSteps (f : list Step.t -> list Step.t) (k : Async A)
| DateNow (k : Z -> Async A)
| Await (ms : Z) (k : Async A).

Arguments Ret {A} a.
Arguments GetInput {A} k.
Arguments GetIsProcessing {A} k.
Arguments SetInput {A} s k.
Arguments SetIsProcessing {A} b k.
Arguments SetMessages {A} f k.
Arguments SetSteps {A} f k.
Arguments DateNow {A} k.
Arguments Await {A} ms k.

Fixpoint bind {A B : Type} (m : Async A) (g : A -> Async B) : Async B :=
  match m with
  | Ret a => g a
  | GetInput k => GetInput (fun s => bind (k s) g)
  | GetIsProcessing k => GetIsProcessing (fun b => bind (k b) g)
  | SetInput s k => SetInput s (bind k g)
  | SetIsProcessing b k => SetIsProcessing b (bind k g)
  | SetMessages f k => SetMessages f (bind k g)
  | SetSteps f k => SetSteps f (bind k g)
  | DateNow k => DateNow (fun t => bind (k t) g)
  | Await ms k => Await ms (bind k g)
  end.

Declare Scope async_scope.
Delimit Scope async_scope with async.
Notation "x <- m ;; k" := (bind m (fun x => k))
  (at level 61, m at next level, right associativity) : async_scope.
Notation "m ;; k" := (bind m (fun _ => k))
  (at level 61, right associativity) : async_scope.
Local Open Scope async_scope.

Definition getInput : Async string := GetInput Ret.
Definition getIsProcessing : Async bool := GetIsProcessing Ret.
Definition setInput (s : string) : Async unit := SetInput s (Ret tt).
Definition setIsProcessing (b : bool) : Async unit := SetIsProcessing b (Ret tt).
Definition setMessages (f : list Message.t -> list Message.t) : Async unit :=
  SetMessages f (Ret tt).
Definition setSteps (f : list Step.t -> list Step.t) : Async unit :=
  SetSteps f (Ret tt).
Definition Date_now : Async Z := DateNow Ret.
Definition new_Date : Async Z := DateNow Ret.

(** [await delay(ms)]: a timer of [ms] milliseconds. *)
Definition delay (ms : Z) : Async unit := Await ms (Ret tt).

(** ** The component's functions *)

Definition updateStep (id : string) (st : Status) : Async unit :=
  setSteps (fun prev =>
    map (fun s => if String.eqb (Step.id s) id then Step.with_status s st else s)
        prev).

(** The parameter [type] defaults to ['text'] at the call sites that omit
    it; [addMessage] itself always stores a defined type.  The source builds
    the Entry inside the updater, so its two clock readings are made when
    the updater is applied: in the same block and in the same order as
    here. *)
Definition addMessage (role : Role) (content : string) (type : MessageType)
  : Async unit :=
  now <- Date_now ;;
  date <- new_Date ;;
  setMessages (fun prev =>
    prev ++ [ Message.mk (JS.toString now) role content date (Some type) ]).

Definition simulateAgentProcess (prompt : string) : Async unit :=
  (* Reset steps *)
  setSteps (fun prev => map (fun s => Step.with_status s pending) prev) ;;
  (* Step 1: Analyze *)
  updateStep "1" active ;;
  delay 1000 ;;
  addMessage agent
    ("Analyzing request: " ++ JS.dquote ++ prompt ++ JS.dquote ++ "...")%string
    text ;;
  updateStep "1" completed ;;
  (* Step 2: Architecture *)
  updateStep "2" active ;;
  delay 1500 ;;
  addMessage agent "Generating system architecture..." code ;;
  updateStep "2" completed ;;
  (* Step 3: Code *)
  updateStep "3" active ;;
  delay 2000 ;;
  addMessage agent "Writing React components and API routes..." text ;;
  updateStep "3" completed ;;
  (* Step 4: Deploy *)
  updateStep "4" active ;;
  delay 2000 ;;
  addMessage system "Deploying to production environment..." status ;;
  updateStep "4" completed ;;
  addMessage agent "Deployment successful! Application is live." text ;;
  setIsProcessing false.

Definition handleSend : Async unit :=
  input <- getInput ;;
  isProcessing <- getIsProcessing ;;
  if negb (JS.truthy (JS.trim input)) || isProcessing then Ret tt
  else
    now <- Date_now ;;
    date <- new_Date ;;
    let userMsg := Message.mk (JS.toString now) user input date (Some text) in
    setMessages (fun prev => prev ++ [userMsg]) ;;
    setInput EmptyString ;;
    setIsProcessing true ;;
    (* Simulate Agent Process *)
    simulateAgentProcess input.

(** ** Running a synchronous block *)

Inductive Op : Type := OpInput | OpProcessing | OpMessages | OpSteps.

(** One committed state update: which setter ran and the state after it. *)
Definition Obs : Type := (Op * World)%type.

Inductive Outcome (A : Type) : Type :=
| Finished (a : A)
| Suspended (ms : Z) (k : Async A).

Arguments Finished {A} a.
Arguments Suspended {A} ms k.

Record Result (A : Type) : Type := mkResult
  { trace : list Obs;
    final : World;
    outcome : Outcome A }.

Arguments mkResult {A} trace final outcome.
Arguments trace {A} r.
Arguments final {A} r.
Arguments outcome {A} r.

Definition record {A : Type} (o : Op) (w : World) (r : Result A) : Result A :=
  mkResult ((o, w) :: trace r) (final r) (outcome r).

(** [exec p clk n w] runs [p] from state [w] up to its first [await]; [clk]
    is the clock of the block and [n] the number of readings already made. *)
Fixpoint exec {A : Type} (p : Async A) (clk : nat -> Z) (n : nat) (w : World)
  : Result A :=
  match p with
  | Ret a => mkResult [] w (Finished a)
  | GetInput k => exec (k (input w)) clk n w
  | GetIsProcessing k => exec (k (isProcessing w)) clk n w
  | SetInput s k =>
      let w' := mkWorld s (isProcessing w) (messages w) (steps w) in
      record OpInput w' (exec k clk n w')
  | SetIsProcessing b k =>
      let w' := mkWorld (input w) b (messages w) (steps w) in
      record OpProcessing w' (exec k clk n w')
  | SetMessages f k =>
      let w' := mkWorld (input w) (isProcessing w) (f (messages w)) (steps w) in
      record OpMessages w' (exec k clk n w')
  | SetSteps f k =>
      let w' := mkWorld (input w) (isProcessing w) (messages w) (f (steps w)) in
      record OpSteps w' (exec k clk n w')
  | DateNow k => exec (k (clk n)) clk (S n) w
  | Await ms k => mkResult [] w (Suspended ms k)
  end.

(** ** The event loop *)

Definition Clock : Type := nat -> Z.

Inductive Event : Type :=
| Change (value : string)          (* onChange of the text field *)
| Send (clk : Clock)               (* click on the button, or Enter *)
| Timer (i : nat) (clk : Clock).   (* the i-th pending timer fires *)

Record Sys : Type := mkSys
  { world : World;
    timers : list (Z * Async unit) }.

Definition settle (r : Result unit) (rest : list (Z * Async unit))
  : list Obs * Sys :=
  match outcome r with
  | Finished _ => (trace r, mkSys (final r) rest)
  | Suspended ms k => (trace r, mkSys (final r) (rest ++ [(ms, k)]))
  end.

Fixpoint remove_nth {A : Type} (i : nat) (l : list A) : list A :=
  match l, i with
  | [], _ => []
  | _ :: r, O => r
  | x :: r, S j => x :: remove_nth j r
  end.

Definition step (s : Sys) (e : Event) : list Obs * Sys :=
  match e with
  | Change v => settle (exec (setInput v) (fun _ => 0) 0 (world s)) (timers s)
  | Send clk => settle (exec handleSend clk 0 (world s)) (timers s)
  | Timer i clk =>
      match nth_error (timers s) i with
      | Some (_, k) => settle (exec k clk 0 (world s)) (remove_nth i (timers s))
      | None => ([], s)
      end
  end.

Fixpoint run (s : Sys) (es : list Event) : list Obs * Sys :=
  match es with
  | [] => ([], s)
  | e :: es' =>
      let (tr, s') := step s e in
      let (tr', s'') := run s' es' in
      (tr ++ tr', s'')
  end.

Definition initialSys (t0 : Z) : Sys := mkSys (initialWorld t0) [].

(** ** Observations on states and traces *)

(** A request is blank when it is empty or made of white space only. *)
Fixpoint blank (s : string) : bool :=
  match s with
  | EmptyString => true
  | String c r => JS.isWhiteSpace c && blank r
  end.

Definition statuses (ss : list Step.t) : list Status := map Step.status ss.

(** What never changes in a step: its identifier and its label. *)
Definition shape (ss : list Step.t) : list (string * string) :=
  map (fun s => (Step.id s, Step.label s)) ss.

Definition statusAt (i : nat) (w : World) : option Status :=
  option_map Step.status (nth_error (steps w) i).

(** [l'] is [l] followed by new entries. *)
Definition extends (l l' : list Message.t) : Prop :=
  exists tl, l' = l ++ tl.

(** The steps that are [completed] in [ss'] and were not in [ss], position
    by position. *)
Definition newlyCompleted (ss ss' : list Step.t) : list Step.t :=
  map snd
    (filter (fun p => Status_eqb (Step.status (snd p)) completed
                      && negb (Status_eqb (Step.status (fst p)) completed))
            (combine ss ss')).

(** The step-completed transitions of a trace that starts from the steps
    [prev], in the order in which they happen. *)
Fixpoint completions (prev : list Step.t) (tr : list Obs) : list Step.t :=
  match tr with
  | [] => []
  | o :: tr' =>
      newlyCompleted prev (steps (snd o)) ++ completions (steps (snd o)) tr'
  end.

Definition isActive (i : nat) (w : World) : bool :=
  match statusAt i w with
  | Some active => true
  | _ => false
  end.

(** The Entries appended while the step at position [i] is [active]. *)
Fixpoint entriesDuring (i : nat) (prev : World) (tr : list Obs)
  : list Message.t :=
  match tr with
  | [] => []
  | o :: tr' =>
      (if isActive i prev
       then skipn (List.length (messages prev)) (messages (snd o))
       else [])
      ++ entriesDuring i (snd o) tr'
  end.

Definition isOpSteps (o : Obs) : bool :=
  match fst o with
  | OpSteps => true
  | _ => false
  end.

(** The part of a trace before, and from, its first update of [steps]. *)
Fixpoint beforeReset (tr : list Obs) : list Obs :=
  match tr with
  | [] => []
  | o :: tr' => if isOpSteps o then [] else o :: beforeReset tr'
  end.

Fixpoint fromReset (tr : list Obs) : list Obs :=
  match tr with
  | [] => []
  | o :: tr' => if isOpSteps o then tr else fromReset tr'
  end.

Definition optStatus_eqb (a b : option Status) : bool :=
  match a, b with
  | Some x, Some y => Status_eqb x y
  | None, None => true
  | _, _ => false
  end.

(** Consecutive repetitions removed. *)
Fixpoint compress (l : list (option Status)) : list (option Status) :=
  match l with
  | [] => []
  | x :: r =>
      match r with
      | [] => [x]
      | y :: _ => if optStatus_eqb x y then compress r else x :: compress r
      end
  end.

(** The successive statuses of the step at position [i] along a trace. *)
Definition history (i : nat) (tr : list Obs) : list (option Status) :=
  compress (map (fun o => statusAt i (snd o)) tr).

(** The events of one Run: the accepted call of [handleSend], then the four
    timers, each block with its own clock.  While [isProcessing] holds the
    text field and the button are [disabled], so the page delivers no other
    event in between. *)
Definition runEvents (c0 c1 c2 c3 c4 : Clock) : list Event :=
  [Send c0; Timer 0 c1; Timer 0 c2; Timer 0 c3; Timer 0 c4].

(** The terminal success Entry, appended when the clock reads [now] and
    then [date]. *)
Definition successEntry (now date : Z) : Message.t :=
  Message.mk (JS.toString now) agent
    "Deployment successful! Application is live." date (Some text).

(** The concrete scenario: the request typed into the freshly mounted
    component. *)
Definition todoWorld (t0 : Z) : World :=
  mkWorld "build a todo app" false (initialMessages t0) initialSteps.

Definition todoRun (t0 : Z) (c0 c1 c2 c3 c4 : Clock) : list Obs * Sys :=
  run (mkSys (todoWorld t0) []) (runEvents c0 c1 c2 c3 c4).

(** The clock of a block that runs within the millisecond [t]. *)
Definition sameMs (t : Z) : Clock := fun _ => t.

(** The scenario after the request has been accepted: step 1 is [active]
    and the first timer is pending. *)
Definition todoRunning : Sys :=
  snd (step (mkSys (todoWorld 0) []) (Send (sameMs 10))).

(** A state whose text field holds only white space. *)
Definition blankSys : Sys :=
  mkSys (mkWorld "   " false (initialMessages 0) initialSteps) [].

(** [tr] is a chain of updates from [prev] in which every update is related
    to the state before it by [R]. *)
Fixpoint chainOf (R : World -> World -> Prop) (prev : World) (tr : list Obs)
  : Prop :=
  match tr with
  | [] => True
  | o :: tr' => R prev (snd o) /\ chainOf R (snd o) tr'
  end.

(** An update that only appends to the timeline: the Entries present before
    are all still there, unchanged and at the same positions. *)
Definition appendStep (w w' : World) : Prop :=
  extends (messages w) (messages w').

(** An update that changes no step's identifier or label, nor the number or
    the order of the steps. *)
Definition shapeStep (w w' : World) : Prop :=
  shape (steps w') = shape (steps w).

Definition appendOnly : World -> list Obs -> Prop := chainOf appendStep.
Definition shapeKept : World -> list Obs -> Prop := chainOf shapeStep.

(** The state after the last update of a trace. *)
Fixpoint lastWorld (w : World) (tr : list Obs) : World :=
  match tr with
  | [] => w
  | o :: tr' => lastWorld (snd o) tr'
  end.

(** Programs all of whose updaters, whatever the program has read, append
    to [messages] and keep the shape of [steps]. *)
Inductive Disciplined {A : Type} : Async A -> Prop :=
| D_Ret a : Disciplined (Ret a)
| D_GetInput k : (forall s, Disciplined (k s)) -> Disciplined (GetInput k)
| D_GetIsProcessing k :
    (forall b, Disciplined (k b)) -> Disciplined (GetIsProcessing k)
| D_SetInput s k : Disciplined k -> Disciplined (SetInput s k)
| D_SetIsProcessing b k : Disciplined k -> Disciplined (SetIsProcessing b k)
| D_SetMessages f k :
    (forall l, extends l (f l)) -> Disciplined k ->
    Disciplined (SetMessages f k)
| D_SetSteps f k :
    (forall l, shape (f l) = shape l) -> Disciplined k ->
    Disciplined (SetSteps f k)
| D_DateNow k : (forall t, Disciplined (k t)) -> Disciplined (DateNow k)
| D_Await ms k : Disciplined k -> Disciplined (Await ms k).

Definition DisciplinedSys (s : Sys) : Prop :=
  Forall (fun t => Disciplined (snd t)) (timers s).

(** The rest of a program after its first [await]; it does not depend on
    the state or on the clock for the programs of this page. *)
Definition resume (p : Async unit) : Async unit :=
  match outcome (exec p (fun _ => 0) 0 (initialWorld 0)) with
  | Suspended _ k => k
  | Finished _ => Ret tt
  end.

(** The rest of [simulateAgentProcess prompt] after its [n]-th [await]. *)
Definition continuation (n : nat) (prompt : string) : Async unit :=
  Nat.iter n resume (simulateAgentProcess prompt).

(** The duration of the [n]-th [await] of [simulateAgentProcess]. *)
Definition delayAt (n : nat) : Z :=
  match n with
  | 1%nat => 1000
  | 2%nat => 1500
  | _ => 2000
  end.

(** The statuses of the four steps during the [n]-th [await]. *)
Definition stageStatuses (n : nat) : list Status :=
  match n with
  | 1%nat => [active; pending; pending; pending]
  | 2%nat => [completed; active; pending; pending]
  | 3%nat => [completed; completed; active; pending]
  | _ => [completed; completed; completed; active]
  end.

(** The only Entries of type [status] that the program text contains: the
    banner of the initial timeline and the deployment notice. *)
Definition knownStatusEntry (m : Message.t) : Prop :=
  Message.type m = Some status ->
  Message.content m
    = "AutoDeploy Agent v1.0 initialized. Ready for instructions."
  \/ Message.content m = "Deploying to production environment...".

(** No Run in progress: no timer, and the steps are as the page starts
    ([pending], and then no request has been accepted yet) or as a Run
    leaves them ([completed]). *)
Definition IdleState (s : Sys) : Prop :=
  timers s = [] /\
  isProcessing (world s) = false /\
  (statuses (steps (world s)) = [pending; pending; pending; pending] /\
   Forall (fun m => Message.role m <> user) (messages (world s))
   \/
   statuses (steps (world s)) = [completed; completed; completed; completed]).

(** A Run waiting in its [n]-th [await]. *)
Definition RunningState (n : nat) (s : Sys) : Prop :=
  exists prompt,
    timers s = [(delayAt n, continuation n prompt)] /\
    isProcessing (world s) = true /\
    statuses (steps (world s)) = stageStatuses n.

Definition Inv (s : Sys) : Prop :=
  shape (steps (world s)) = shape initialSteps /\
  Forall knownStatusEntry (messages (world s)) /\
  (IdleState s \/ RunningState 1 s \/ RunningState 2 s \/
   RunningState 3 s \/ RunningState 4 s).

(** The status changes of the chain [pending], [active], then [completed]
    or [failed]: a step keeps its status or moves one link forward. *)
Definition forwardb (a b : Status) : bool :=
  match a, b with
  | pending, pending | pending, active
  | active, active | active, completed | active, failed
  | completed, completed | failed, failed => true
  | _, _ => false
  end.

Definition forwardAll (l l' : list Status) : bool :=
  Nat.eqb (List.length l) (List.length l')
  && forallb (fun p => forwardb (fst p) (snd p)) (combine l l').

(** The reset that opens a Run: no step is [active] before it and every
    step is [pending] after it. *)
Definition resetb (l l' : list Status) : bool :=
  Nat.eqb (List.length l) (List.length l')
  && negb (existsb (Status_eqb active) l)
  && forallb (Status_eqb pending) l'.

(** An update under which each step either follows the chain or is reset
    for a new Run. *)
Definition legalUpdate (w w' : World) : Prop :=
  forwardAll (statuses (steps w)) (statuses (steps w'))
  || resetb (statuses (steps w)) (statuses (steps w')) = true.

(** ** The rendered page

    The parts of the JSX that depend on the state. *)

(** [disabled={isProcessing}] on the text field. *)
Definition inputDisabled (w : World) : bool := isProcessing w.

(** [disabled={!input.trim() || isProcessing}] on the send button. *)
Definition sendDisabled (w : World) : bool :=
  negb (JS.truthy (JS.trim (input w))) || isProcessing w.

(** [{isProcessing && ...}]: the row that reads "Processing request...". *)
Definition showsProcessing (w : World) : bool := isProcessing w.

(** [onKeyDown={(e) => e.key === 'Enter' && handleSend()}]. *)
Definition onKeyDown (key : string) : Async unit :=
  if String.eqb key "Enter" then handleSend else Ret tt.

(** What a step's circle shows: the check icon once the step is
    [completed], otherwise [idx + 1]. *)
Inductive Badge : Type := CheckCircle | Index (n : nat).

Definition stepBadge (step : Step.t) (idx : nat) : Badge :=
  if Status_eqb (Step.status step) completed then CheckCircle
  else Index (idx + 1).

(** [Array.prototype.map] with the index passed to the callback. *)
Fixpoint mapIndexed {A B : Type} (f : A -> nat -> B) (idx : nat) (l : list A)
  : list B :=
  match l with
  | [] => []
  | x :: r => f x idx :: mapIndexed f (S idx) r
  end.

Definition stepBadges (w : World) : list Badge :=
  mapIndexed stepBadge 0 (steps w).

(** The step drawn with the pulsing accent: [step.status === 'active']. *)
Definition stepHighlighted (step : Step.t) : bool :=
  Status_eqb (Step.status step) active.

(** The React keys of the step rows: [key={step.id}]. *)
Definition stepKeys (w : World) : list string := map Step.id (steps w).

(** ** More observations *)

(** The six Entries a Run appends for [request], read off
    [handleSend] and [simulateAgentProcess]. *)
Definition runEntries (request : string) (c0 c1 c2 c3 c4 : Clock)
  : list Message.t :=
  [ Message.mk (JS.toString (c0 0%nat)) user request (c0 1%nat) (Some text);
    Message.mk (JS.toString (c1 0%nat)) agent
      ("Analyzing request: " ++ JS.dquote ++ request ++ JS.dquote ++ "...")%string
      (c1 1%nat) (Some text);
    Message.mk (JS.toString (c2 0%nat)) agent
      "Generating system architecture..." (c2 1%nat) (Some code);
    Message.mk (JS.toString (c3 0%nat)) agent
      "Writing React components and API routes..." (c3 1%nat) (Some text);
    Message.mk (JS.toString (c4 0%nat)) system
      "Deploying to production environment..." (c4 1%nat) (Some status);
    successEntry (c4 2%nat) (c4 3%nat) ].

(** The clock readings that become the ids of those Entries. *)
Definition idReadings (c0 c1 c2 c3 c4 : Clock) : list Z :=
  [c0 0%nat; c1 0%nat; c2 0%nat; c3 0%nat; c4 0%nat; c4 2%nat].

(** Events that are not the firing of the first pending timer. *)
Definition noise (e : Event) : bool :=
  match e with
  | Change _ | Send _ => true
  | Timer i _ => negb (Nat.eqb i 0)
  end.

(** A Run with other events delivered between its blocks. *)
Definition disturbedRun (c0 : Clock) (n1 : list Event) (c1 : Clock)
    (n2 : list Event) (c2 : Clock) (n3 : list Event) (c3 : Clock)
    (n4 : list Event) (c4 : Clock) : list Event :=
  Send c0 :: n1 ++ Timer 0 c1 :: n2 ++ Timer 0 c2 :: n3 ++ Timer 0 c3
    :: n4 ++ [Timer 0 c4].

(** Two states of the system that differ at most in the text field. *)
Definition agree (s s' : Sys) : Prop :=
  timers s = timers s' /\
  isProcessing (world s) = isProcessing (world s') /\
  messages (world s) = messages (world s') /\
  steps (world s) = steps (world s').

(** Programs that never read the state. *)
Inductive Blind {A : Type} : Async A -> Prop :=
| B_Ret a : Blind (Ret a)
| B_SetInput s k : Blind k -> Blind (SetInput s k)
| B_SetIsProcessing b k : Blind k -> Blind (SetIsProcessing b k)
| B_SetMessages f k : Blind k -> Blind (SetMessages f k)
| B_SetSteps f k : Blind k -> Blind (SetSteps f k)
| B_DateNow k : (forall t, Blind (k t)) -> Blind (DateNow k)
| B_Await ms k : Blind k -> Blind (Await ms k).

(** Statuses in pipeline order: [completed] steps first, then at most one
    [active] step, then [pending] steps; no [failed] step. *)
Fixpoint orderlyb (l : list Status) : bool :=
  match l with
  | [] => true
  | completed :: r => orderlyb r
  | active :: r | pending :: r => forallb (Status_eqb pending) r
  | failed :: _ => false
  end.

(** The durations of the pending timers. *)
Definition pendingDelays (s : Sys) : list Z := map fst (timers s).

(** The pairs of origin and type that the program text gives to an Entry,
    a [user] Entry carrying a request that is not blank. *)
Definition entryOk (m : Message.t) : bool :=
  match Message.role m, Message.type m with
  | user, Some text => negb (blank (Message.content m))
  | agent, Some text | agent, Some code => true
  | system, Some status => true
  | _, _ => false
  end.

Definition isUserEntry (m : Message.t) : bool :=
  match Message.role m with
  | user => true
  | _ => false
  end.

Definition isSuccessEntry (m : Message.t) : bool :=
  match Message.role m with
  | agent =>
      String.eqb (Message.content m)
        "Deployment successful! Application is live."
  | _ => false
  end.

Definition count (p : Message.t -> bool) (l : list Message.t) : nat :=
  List.length (filter p l).

(** The timeline holds well-formed Entries, and one success Entry for
    every request, the request of the Run in progress excepted. *)
Definition Ledger (w : World) : Prop :=
  forallb entryOk (messages w) = true /\
  count isUserEntry (messages w)
  = (count isSuccessEntry (messages w) + (if isProcessing w then 1 else 0))%nat.

(** ** White space and [trim] *)

Lemma trimStart_blank (s : string) :
  blank s = true -> JS.trimStart s = EmptyString.
Proof.
  induction s as [|c r IH]; simpl; [reflexivity|].
  intros H. apply andb_true_iff in H. destruct H as [Hc Hr].
  rewrite Hc. exact (IH Hr).
Qed.

Lemma trim_blank (s : string) : blank s = true -> JS.trim s = EmptyString.
Proof.
  intros H. unfold JS.trim. rewrite (trimStart_blank s H). reflexivity.
Qed.

Lemma trimStart_not_blank (s : string) :
  blank s = false ->
  exists c r, JS.trimStart s = String c r /\ JS.isWhiteSpace c = false.
Proof.
  induction s as [|c r IH]; simpl; [discriminate|].
  destruct (JS.isWhiteSpace c) eqn:Hc; simpl.
  - exact IH.
  - intros _. exists c, r. split; [reflexivity | exact Hc].
Qed.

Lemma trim_not_blank (s : string) :
  blank s = false -> JS.truthy (JS.trim s) = true.
Proof.
  intros H. destruct (trimStart_not_blank s H) as (c & r & E & Hc).
  unfold JS.trim. rewrite E. simpl. rewrite Hc.
  destruct (JS.trimEnd r); reflexivity.
Qed.

Lemma trim_truthy_iff (s : string) :
  JS.truthy (JS.trim s) = negb (blank s).
Proof.
  destruct (blank s) eqn:H; simpl.
  - rewrite (trim_blank s H). reflexivity.
  - exact (trim_not_blank s H).
Qed.

(** ** [handleSend]: the two guards *)

Lemma exec_handleSend_rejected (clk : Clock) (n : nat) (w : World) :
  blank (input w) || isProcessing w = true ->
  exec handleSend clk n w = mkResult [] w (Finished tt).
Proof.
  intros H. unfold handleSend, getInput, getIsProcessing. simpl.
  rewrite trim_truthy_iff, negb_involutive, H. reflexivity.
Qed.

(** C2: a call of [handleSend] while a Run is in progress returns at once:
    it reaches no [await], makes no state update at all (so no step is reset
    and no Entry is appended), and leaves [steps], [messages] and
    [isProcessing] as they were; as an event of the system it changes
    neither the state nor the pending timers. *)
Theorem handleSend_busy_noop (clk : Clock) (s : Sys) :
  isProcessing (world s) = true ->
  let r := exec handleSend clk 0 (world s) in
  outcome r = Finished tt /\
  trace r = [] /\
  steps (final r) = steps (world s) /\
  messages (final r) = messages (world s) /\
  isProcessing (final r) = true /\
  step s (Send clk) = ([], s).
Proof.
  intros H r. subst r.
  assert (E : exec handleSend clk 0 (world s) = mkResult [] (world s) (Finished tt)).
  { apply exec_handleSend_rejected. rewrite H. apply orb_true_r. }
  unfold step, settle. rewrite E. simpl.
  repeat split; try assumption. destruct s; reflexivity.
Qed.

Lemma handleSend_busy_noop_witness :
  isProcessing (world todoRunning) = true /\
  step todoRunning (Send (sameMs 500)) = ([], todoRunning).
Proof.
  split; [reflexivity|].
  exact (proj2 (proj2 (proj2 (proj2 (proj2
    (handleSend_busy_noop (sameMs 500) todoRunning eq_refl)))))).
Defined.

(** C10: a call of [handleSend] with an empty or white-space-only input
    does nothing: no update is made, the state is returned as it was (no
    user Entry, no step touched, [isProcessing] unchanged, hence still
    [false] when it was) and no timer is armed. *)
Theorem handleSend_blank_noop (clk : Clock) (s : Sys) :
  blank (input (world s)) = true ->
  let r := exec handleSend clk 0 (world s) in
  outcome r = Finished tt /\
  trace r = [] /\
  final r = world s /\
  (isProcessing (world s) = false -> isProcessing (final r) = false) /\
  step s (Send clk) = ([], s).
Proof.
  intros H r. subst r.
  assert (E : exec handleSend clk 0 (world s) = mkResult [] (world s) (Finished tt)).
  { apply exec_handleSend_rejected. rewrite H. reflexivity. }
  unfold step, settle. rewrite E. simpl.
  repeat split; try assumption. 
  - intros H0; exact H0.
  - destruct s; reflexivity.
Qed.

Lemma handleSend_blank_noop_witness :
  blank (input (world blankSys)) = true /\
  step blankSys (Send (sameMs 500)) = ([], blankSys).
Proof.
  split; [reflexivity|].
  exact (proj2 (proj2 (proj2 (proj2
    (handleSend_blank_noop (sameMs 500) blankSys eq_refl))))).
Defined.

(** ** [updateStep] *)

Lemma exec_updateStep (id : string) (st : Status) (clk : Clock) (n : nat)
    (w : World) :
  exec (updateStep id st) clk n w =
  let w' := mkWorld (input w) (isProcessing w) (messages w)
              (map (fun s => if String.eqb (Step.id s) id
                             then Step.with_status s st else s) (steps w)) in
  mkResult [(OpSteps, w')] w' (Finished tt).
Proof. reflexivity. Qed.

Lemma map_update_absent (id : string) (st : Status) (ss : list Step.t) :
  ~ In id (map Step.id ss) ->
  map (fun s => if String.eqb (Step.id s) id then Step.with_status s st else s) ss
  = ss.
Proof.
  induction ss as [|s r IH]; simpl; intros H; [reflexivity|].
  destruct (String.eqb_spec (Step.id s) id) as [E|E].
  - exfalso. apply H. left. exact E.
  - f_equal. apply IH. intros Hin. apply H. right. exact Hin.
Qed.

(** C9: [updateStep id st] completes without suspending, touches nothing but
    [steps], keeps the number of steps, replaces exactly the steps whose id
    is [id] by the same step with status [st] (identifier and label kept) and
    leaves every other step as it was; with an [id] that no step carries the
    whole state is returned unchanged. *)
Theorem updateStep_frame (id : string) (st : Status) (clk : Clock) (n : nat)
    (w : World) :
  let r := exec (updateStep id st) clk n w in
  outcome r = Finished tt /\
  input (final r) = input w /\
  isProcessing (final r) = isProcessing w /\
  messages (final r) = messages w /\
  List.length (steps (final r)) = List.length (steps w) /\
  (forall i s, nth_error (steps w) i = Some s ->
     nth_error (steps (final r)) i =
     Some (if String.eqb (Step.id s) id
           then Step.mk (Step.id s) (Step.label s) st else s)) /\
  (~ In id (map Step.id (steps w)) -> final r = w).
Proof.
  rewrite exec_updateStep. simpl.
  repeat split.
  - apply length_map.
  - intros i s H. rewrite nth_error_map, H. reflexivity.
  - intros H. rewrite (map_update_absent id st _ H). destruct w; reflexivity.
Qed.

(** ** One Run from an idle state *)

Lemma shape_initial (ss : list Step.t) :
  shape ss = shape initialSteps ->
  exists a b c d,
    ss = [ Step.mk "1" "Analyze Request" a;
           Step.mk "2" "Generate Architecture" b;
           Step.mk "3" "Write Code" c;
           Step.mk "4" "Deploy to Edge" d ].
Proof.
  intros H.
  destruct ss as [|[i1 l1 a] [|[i2 l2 b] [|[i3 l3 c] [|[i4 l4 d] [|? ?]]]]];
    try discriminate H.
  injection H as -> -> -> -> -> -> -> ->. eauto.
Qed.

Lemma newlyCompleted_same (ss : list Step.t) : newlyCompleted ss ss = [].
Proof.
  unfold newlyCompleted. induction ss as [|s r IH]; simpl; [reflexivity|].
  destruct (Status_eqb (Step.status s) completed); simpl; exact IH.
Qed.

(** Name the parts of an idle state that has the four steps of the page. *)
Ltac idle_world w Hp Hb Hs :=
  let inp := fresh "inp" in
  let pr := fresh "pr" in
  let msgs := fresh "msgs" in
  let ss := fresh "ss" in
  destruct w as [inp pr msgs ss]; simpl in Hp, Hb, Hs; subst pr;
  destruct (shape_initial _ Hs) as (?a & ?b & ?c & ?d & ->); clear Hs.

(** Evaluate a Run whose request is known not to be blank. *)
Ltac eval_run Hb :=
  unfold runEvents, run, step, handleSend;
  cbn [bind exec getInput getIsProcessing input isProcessing world timers];
  rewrite trim_truthy_iff, Hb;
  cbn -[JS.toString String.append newlyCompleted completions history
        fromReset beforeReset entriesDuring skipn last].

(** C1: from any idle state that has the page's four steps, a request that
    is not blank is accepted and, once its four timers have fired, the Run is
    over (no timer left, [isProcessing] false) with all four steps
    [completed]; the step-completed transitions happened for steps 1, 2, 3, 4
    in that order, one each; and the last three updates of the Run are: step
    4 becomes [completed], the success Entry is appended at the end of the
    timeline, [isProcessing] is cleared. *)
Theorem run_completes (w : World) (c0 c1 c2 c3 c4 : Clock) :
  isProcessing w = false ->
  blank (input w) = false ->
  shape (steps w) = shape initialSteps ->
  let r := run (mkSys w []) (runEvents c0 c1 c2 c3 c4) in
  let w' := world (snd r) in
  timers (snd r) = [] /\
  isProcessing w' = false /\
  statuses (steps w') = [completed; completed; completed; completed] /\
  map Step.id (completions (steps w) (fst r)) = ["1"; "2"; "3"; "4"] /\
  exists tr w4 w5,
    fst r = tr ++ [(OpSteps, w4); (OpMessages, w5); (OpProcessing, w')] /\
    statuses (steps w4) = [completed; completed; completed; completed] /\
    messages w5 = messages w4 ++ [successEntry (c4 2%nat) (c4 3%nat)] /\
    messages w' = messages w5.
Proof.
  intros Hp Hb Hs. idle_world w Hp Hb Hs.
  eval_run Hb.
  repeat split.
  - cbn -[JS.toString String.append newlyCompleted].
    rewrite !newlyCompleted_same. reflexivity.
  - eexists (_ :: _ :: _ :: _ :: _ :: _ :: _ :: _ :: _ :: _ :: _ :: _ :: _
               :: _ :: _ :: []), _, _.
    split; [reflexivity|]. repeat split; reflexivity.
Qed.

Lemma run_completes_witness :
  (isProcessing (todoWorld 0) = false /\
   blank (input (todoWorld 0)) = false /\
   shape (steps (todoWorld 0)) = shape initialSteps) /\
  statuses (steps (world (snd (todoRun 0 (sameMs 10) (sameMs 1010)
                                 (sameMs 2510) (sameMs 4510) (sameMs 6510)))))
  = [completed; completed; completed; completed].
Proof.
  split; [repeat split|].
  exact (proj1 (proj2 (proj2
    (run_completes (todoWorld 0) (sameMs 10) (sameMs 1010) (sameMs 2510)
       (sameMs 4510) (sameMs 6510) eq_refl eq_refl eq_refl)))).
Defined.

(** ** The scenario of the request "build a todo app" *)

(** C4, as the code has it: for the request [build a todo app] typed into
    the fresh page, whatever the clocks, the Run makes exactly four
    step-completed transitions, in the order Analyze Request, Generate
    Architecture, Write Code, Deploy to Edge; while each of the first three
    steps is [active] exactly one Entry is appended and its origin is
    [agent]; while the fourth is [active] exactly one Entry is appended and
    its origin is [system]; the success Entry is the last Entry; and the Run
    appends six Entries (one [user], three [agent], one [system], then the
    success Entry), hence at least five. *)
Theorem todo_scenario (t0 : Z) (c0 c1 c2 c3 c4 : Clock) :
  let r := todoRun t0 c0 c1 c2 c3 c4 in
  let tr := fst r in
  let appended :=
    skipn (List.length (messages (todoWorld t0))) (messages (world (snd r))) in
  map Step.label (completions (steps (todoWorld t0)) tr) =
    ["Analyze Request"; "Generate Architecture"; "Write Code";
     "Deploy to Edge"] /\
  map Message.role (entriesDuring 0 (todoWorld t0) tr) = [agent] /\
  map Message.role (entriesDuring 1 (todoWorld t0) tr) = [agent] /\
  map Message.role (entriesDuring 2 (todoWorld t0) tr) = [agent] /\
  map Message.role (entriesDuring 3 (todoWorld t0) tr) = [system] /\
  last appended (successEntry 0 0) = successEntry (c4 2%nat) (c4 3%nat) /\
  map Message.role appended = [user; agent; agent; agent; system; agent] /\
  (5 <= List.length appended)%nat.
Proof.
  assert (Hb : blank "build a todo app" = false) by reflexivity.
  unfold todoRun, todoWorld. eval_run Hb.
  repeat split; try reflexivity.
  cbn [List.length skipn]. lia.
Qed.

(** C4 as stated fails on the scenario: it asks for an Entry of origin
    [agent] appended for every step, but the only Entry appended while
    step 4 (Deploy to Edge) is [active] has origin [system]. *)
Lemma todo_step4_entry_is_system :
  let w := todoWorld 1700000000000 in
  let r := todoRun 1700000000000 (sameMs 1700000060000)
             (sameMs 1700000061000) (sameMs 1700000062500)
             (sameMs 1700000064500) (sameMs 1700000066500) in
  let entries := skipn 1 (messages (world (snd r))) in
  ~ (map Step.label (completions (steps w) (fst r)) =
       ["Analyze Request"; "Generate Architecture"; "Write Code";
        "Deploy to Edge"] /\
     (forall i, (i < 4)%nat ->
        exists m, In m (entriesDuring i w (fst r)) /\ Message.role m = agent) /\
     last entries (successEntry 0 0) =
       successEntry 1700000066500 1700000066500 /\
     (5 <= List.length entries)%nat).
Proof.
  intros w r entries (_ & H & _).
  destruct (H 3%nat (le_n 4)) as (m & Hin & Hr).
  assert (E : map Message.role (entriesDuring 3 w (fst r)) = [system])
    by (vm_compute; reflexivity).
  apply (in_map Message.role) in Hin. rewrite E, Hr in Hin.
  destruct Hin as [Hin|[]]. discriminate Hin.
Qed.

(** ** Identifiers of Entries *)

Lemma same_block_ids (w : World) (c0 c1 c2 c3 c4 : Clock) :
  isProcessing w = false ->
  blank (input w) = false ->
  shape (steps w) = shape initialSteps ->
  let w' := world (snd (run (mkSys w []) (runEvents c0 c1 c2 c3 c4))) in
  exists pre notice success,
    messages w' = pre ++ [notice; success] /\
    Message.id notice = JS.toString (c4 0%nat) /\
    Message.id success = JS.toString (c4 2%nat).
Proof.
  intros Hp Hb Hs. idle_world w Hp Hb Hs.
  eval_run Hb.
  eexists _, _, _. split.
  - rewrite <- app_assoc. reflexivity.
  - split; reflexivity.
Qed.

(** C5 fails on the code: an id is the clock reading [Date.now()] printed in
    decimal, and the last two [addMessage] calls of a Run are made in the same
    synchronous block.  In the scenario, with that block running within one
    millisecond, the deployment notice and the success Entry carry the same
    id. *)
Theorem todo_duplicate_ids :
  let r := todoRun 1700000000000 (sameMs 1700000060000)
             (sameMs 1700000061000) (sameMs 1700000062500)
             (sameMs 1700000064500) (sameMs 1700000066500) in
  map Message.id (messages (world (snd r))) =
    ["1"; "1700000060000"; "1700000061000"; "1700000062500";
     "1700000064500"; "1700000066500"; "1700000066500"] /\
  ~ NoDup (map Message.id (messages (world (snd r)))).
Proof.
  intros r.
  assert (E : map Message.id (messages (world (snd r))) =
              ["1"; "1700000060000"; "1700000061000"; "1700000062500";
               "1700000064500"; "1700000066500"; "1700000066500"])
    by (vm_compute; reflexivity).
  split; [exact E|].
  rewrite E. intros H.
  repeat match goal with
         | H : NoDup (_ :: _) |- _ => inversion H; clear H; subst
         end.
  match goal with
  | H : ~ In _ [_] |- _ => apply H; left; reflexivity
  end.
Qed.

(** ** Frame properties of every update

    The timeline only grows and the steps keep their shape: both follow from
    the form of the updaters in the program text. *)

Lemma extends_refl l : extends l l.
Proof. exists []. symmetry. apply app_nil_r. Qed.

Lemma extends_trans l1 l2 l3 : extends l1 l2 -> extends l2 l3 -> extends l1 l3.
Proof. intros [a ->] [b ->]. exists (a ++ b). symmetry. apply app_assoc. Qed.

Lemma extends_nth l l' i m :
  extends l l' -> nth_error l i = Some m -> nth_error l' i = Some m.
Proof.
  intros [tl ->] H. rewrite nth_error_app1; [exact H|].
  apply nth_error_Some. rewrite H. discriminate.
Qed.

Lemma chainOf_app R w tr1 tr2 :
  chainOf R w tr1 -> chainOf R (lastWorld w tr1) tr2 -> chainOf R w (tr1 ++ tr2).
Proof.
  revert w. induction tr1 as [|o tr1 IH]; intros w H1 H2; simpl in *.
  - exact H2.
  - destruct H1 as [Ho H1]. split; [exact Ho|]. apply IH; assumption.
Qed.

Lemma lastWorld_app w tr1 tr2 :
  lastWorld w (tr1 ++ tr2) = lastWorld (lastWorld w tr1) tr2.
Proof.
  revert w. induction tr1 as [|o tr1 IH]; intros w; [reflexivity|].
  simpl. apply IH.
Qed.

Lemma Disciplined_bind {A B} (m : Async A) (g : A -> Async B) :
  Disciplined m -> (forall a, Disciplined (g a)) -> Disciplined (bind m g).
Proof.
  intros Hm Hg. induction Hm; simpl; try (constructor; auto). apply Hg.
Qed.

Lemma Disciplined_updateStep id st : Disciplined (updateStep id st).
Proof.
  constructor; [|constructor]. intros l. unfold shape. rewrite map_map.
  apply map_ext. intros s. destruct (String.eqb (Step.id s) id); reflexivity.
Qed.

Lemma Disciplined_addMessage r c t : Disciplined (addMessage r c t).
Proof.
  unfold addMessage, Date_now, new_Date, setMessages. simpl.
  constructor; intros now. constructor; intros date.
  constructor; [|constructor]. intros l. eexists. reflexivity.
Qed.

Lemma Disciplined_setIsProcessing b : Disciplined (setIsProcessing b).
Proof. repeat constructor. Qed.

Lemma Disciplined_setInput v : Disciplined (setInput v).
Proof. repeat constructor. Qed.

Lemma Disciplined_delay ms : Disciplined (delay ms).
Proof. repeat constructor. Qed.

Lemma Disciplined_simulateAgentProcess prompt :
  Disciplined (simulateAgentProcess prompt).
Proof.
  unfold simulateAgentProcess.
  repeat (apply Disciplined_bind; [|intros _]);
    try apply Disciplined_updateStep; try apply Disciplined_addMessage;
    try apply Disciplined_delay; try apply Disciplined_setIsProcessing.
  constructor; [|constructor]. intros l. unfold shape. rewrite map_map. reflexivity.
Qed.

Lemma Disciplined_handleSend : Disciplined handleSend.
Proof.
  unfold handleSend, getInput, getIsProcessing. simpl.
  constructor; intros inp. constructor; intros pr.
  destruct (negb (JS.truthy (JS.trim inp)) || pr); [constructor|].
  constructor; intros now. constructor; intros date.
  constructor; [intros l; eexists; reflexivity|].
  constructor. constructor. apply Disciplined_simulateAgentProcess.
Qed.

Lemma exec_Disciplined {A} (p : Async A) :
  Disciplined p -> forall clk n w,
  let r := exec p clk n w in
  appendOnly w (trace r) /\ shapeKept w (trace r) /\
  final r = lastWorld w (trace r) /\
  forall ms k, outcome r = Suspended ms k -> Disciplined k.
Proof.
  induction 1; intros clk n w; simpl; auto.
  - repeat split; try reflexivity. discriminate.
  - destruct (IHDisciplined clk n (mkWorld s (isProcessing w) (messages w) (steps w))) as (Ha & Hs & Hf & Hk).
    repeat split; auto. apply extends_refl.
  - destruct (IHDisciplined clk n (mkWorld (input w) b (messages w) (steps w))) as (Ha & Hs & Hf & Hk).
    repeat split; auto. apply extends_refl.
  - destruct (IHDisciplined clk n (mkWorld (input w) (isProcessing w) (f (messages w)) (steps w))) as (Ha & Hs & Hf & Hk).
    repeat split; auto. apply H.
  - destruct (IHDisciplined clk n (mkWorld (input w) (isProcessing w) (messages w) (f (steps w)))) as (Ha & Hs & Hf & Hk).
    repeat split; auto. apply extends_refl. apply H.
  - repeat split; try reflexivity. intros ms0 k0 E. injection E as <- <-. assumption.
Qed.

Lemma Forall_remove_nth {A} (P : A -> Prop) i l :
  Forall P l -> Forall P (remove_nth i l).
Proof.
  intros H. revert i. induction H as [|x l Hx Hl IH]; intros i; simpl.
  - destruct i; constructor.
  - destruct i; [exact Hl|]. constructor; [exact Hx|apply IH].
Qed.

Lemma settle_Disciplined (p : Async unit) clk n w rest :
  Disciplined p -> Forall (fun t => Disciplined (snd t)) rest ->
  let r := settle (exec p clk n w) rest in
  appendOnly w (fst r) /\ shapeKept w (fst r) /\
  world (snd r) = lastWorld w (fst r) /\ DisciplinedSys (snd r).
Proof.
  intros Hp Hrest.
  destruct (exec_Disciplined p Hp clk n w) as (Ha & Hs & Hf & Hk).
  unfold settle. destruct (outcome (exec p clk n w)) as [u|ms k] eqn:E; simpl.
  - repeat split; assumption.
  - repeat split; try assumption. unfold DisciplinedSys. simpl.
    apply Forall_app. split; [exact Hrest|].
    constructor; [|constructor]. simpl. exact (Hk ms k eq_refl).
Qed.

Lemma step_Disciplined (s : Sys) (e : Event) :
  DisciplinedSys s ->
  let r := step s e in
  appendOnly (world s) (fst r) /\ shapeKept (world s) (fst r) /\
  world (snd r) = lastWorld (world s) (fst r) /\ DisciplinedSys (snd r).
Proof.
  intros Hs. destruct e as [v|clk|i clk]; unfold step.
  - apply settle_Disciplined; [apply Disciplined_setInput|exact Hs].
  - apply settle_Disciplined; [apply Disciplined_handleSend|exact Hs].
  - destruct (nth_error (timers s) i) as [[ms k]|] eqn:E.
    + apply settle_Disciplined.
      * apply nth_error_In in E. unfold DisciplinedSys in Hs.
        rewrite Forall_forall in Hs. exact (Hs _ E).
      * apply Forall_remove_nth. exact Hs.
    + simpl. repeat split; try exact I. exact Hs.
Qed.

Lemma run_Disciplined (es : list Event) : forall s,
  DisciplinedSys s ->
  let r := run s es in
  appendOnly (world s) (fst r) /\ shapeKept (world s) (fst r) /\
  world (snd r) = lastWorld (world s) (fst r) /\ DisciplinedSys (snd r).
Proof.
  induction es as [|e es IH]; intros s Hs; simpl.
  - repeat split; try exact I. exact Hs.
  - destruct (step_Disciplined s e Hs) as (Ha & Hk & Hw & Hd).
    destruct (step s e) as [tr s'] eqn:E. simpl in *.
    destruct (IH s' Hd) as (Ha' & Hk' & Hw' & Hd').
    destruct (run s' es) as [tr' s''] eqn:E'. simpl in *.
    rewrite Hw in Ha', Hk', Hw'.
    repeat split.
    + apply chainOf_app; assumption.
    + apply chainOf_app; assumption.
    + rewrite lastWorld_app. exact Hw'.
    + exact Hd'.
Qed.

(** C6: the timeline is append-only.  In every execution of the page from
    its initial state, and in every execution that starts in an arbitrary
    state [w] with [handleSend], [simulateAgentProcess], [addMessage] or
    [updateStep] about to run, under any sequence of events, every single
    state update leaves the list of Entries it finds as a prefix of the list
    it produces: the Entries already appended keep their position and all
    their fields, none is removed, reordered or changed. *)
Theorem timeline_append_only (w : World) (es : list Event) :
  (forall t0, appendOnly (initialWorld t0) (fst (run (initialSys t0) es))) /\
  appendOnly w (fst (run (mkSys w [(0, handleSend)]) es)) /\
  (forall prompt,
     appendOnly w (fst (run (mkSys w [(0, simulateAgentProcess prompt)]) es))) /\
  (forall role content type,
     appendOnly w (fst (run (mkSys w [(0, addMessage role content type)]) es))) /\
  (forall id st,
     appendOnly w (fst (run (mkSys w [(0, updateStep id st)]) es))).
Proof.
  assert (one : forall p, Disciplined p ->
            appendOnly w (fst (run (mkSys w [(0, p)]) es))).
  { intros p Hp. apply (run_Disciplined es (mkSys w [(0, p)])).
    constructor; [exact Hp|constructor]. }
  repeat split; intros.
  - apply (run_Disciplined es (initialSys t0)). constructor.
  - apply one, Disciplined_handleSend.
  - apply one, Disciplined_simulateAgentProcess.
  - apply one, Disciplined_addMessage.
  - apply one, Disciplined_updateStep.
Qed.

(** C7: an accepted call of [handleSend] does not touch [steps] before its
    first [setSteps], and that first update leaves every step [pending];
    from then on, through the whole Run and any later event, no update
    changes the number of steps, their order, or any step's identifier or
    label: only [status] changes. *)
Theorem submit_resets_steps (w : World) (clk : Clock) :
  isProcessing w = false ->
  blank (input w) = false ->
  let tr := trace (exec handleSend clk 0 w) in
  (forall o, In o (beforeReset tr) -> steps (snd o) = steps w) /\
  (exists w1 rest,
     fromReset tr = (OpSteps, w1) :: rest /\
     Forall (fun s => Step.status s = pending) (steps w1)) /\
  forall es, shapeKept w (fst (run (mkSys w []) (Send clk :: es))).
Proof.
  intros Hp Hb. split; [|split].
  - destruct w as [inp pr msgs ss]. simpl in Hp, Hb. subst pr.
    unfold handleSend.
    cbn [bind exec getInput getIsProcessing input isProcessing].
    rewrite trim_truthy_iff, Hb.
    cbn -[JS.toString String.append].
    intros o [<-|[<-|[<-|[]]]]; reflexivity.
  - destruct w as [inp pr msgs ss]. simpl in Hp, Hb. subst pr.
    unfold handleSend.
    cbn [bind exec getInput getIsProcessing input isProcessing].
    rewrite trim_truthy_iff, Hb.
    cbn -[JS.toString String.append].
    eexists _, _. split; [reflexivity|]. simpl.
    apply Forall_map. apply Forall_forall. intros s _. reflexivity.
  - intros es. apply (run_Disciplined (Send clk :: es) (mkSys w [])). constructor.
Qed.

Lemma submit_resets_steps_witness :
  (isProcessing (todoWorld 0) = false /\
   blank (input (todoWorld 0)) = false) /\
  shapeKept (todoWorld 0)
    (fst (run (mkSys (todoWorld 0) [])
            (Send (sameMs 10) :: [Timer 0 (sameMs 1010)]))).
Proof.
  split; [split; reflexivity|].
  exact (proj2 (proj2
    (submit_resets_steps (todoWorld 0) (sameMs 10) eq_refl eq_refl))
    [Timer 0 (sameMs 1010)]).
Defined.

(** ** The states the page can reach

    Either no Run is in progress, or exactly one is, waiting in one of its
    four [await]s with the steps in the matching stage. *)

Lemma steps_of_statuses ss l :
  shape ss = shape initialSteps -> statuses ss = l ->
  exists a b c d, l = [a; b; c; d] /\
    ss = [ Step.mk "1" "Analyze Request" a;
           Step.mk "2" "Generate Architecture" b;
           Step.mk "3" "Write Code" c;
           Step.mk "4" "Deploy to Edge" d ].
Proof.
  intros H E. destruct (shape_initial ss H) as (a & b & c & d & ->).
  exists a, b, c, d. split; [symmetry; exact E|reflexivity].
Qed.

Lemma phase_frame s s' :
  timers s' = timers s ->
  isProcessing (world s') = isProcessing (world s) ->
  steps (world s') = steps (world s) ->
  messages (world s') = messages (world s) ->
  (IdleState s \/ RunningState 1 s \/ RunningState 2 s \/
   RunningState 3 s \/ RunningState 4 s) ->
  (IdleState s' \/ RunningState 1 s' \/ RunningState 2 s' \/
   RunningState 3 s' \/ RunningState 4 s').
Proof.
  intros Ht Hp Hs Hm H. unfold IdleState, RunningState in *.
  rewrite Ht, Hp, Hs, Hm. exact H.
Qed.

Lemma Inv_Change s v : Inv s -> Inv (snd (step s (Change v))).
Proof.
  intros (Hs & Hm & Hc). unfold step, settle. simpl.
  split; [exact Hs|]. split; [exact Hm|].
  revert Hc. apply phase_frame; reflexivity.
Qed.

Lemma RunningState_processing n s : RunningState n s -> isProcessing (world s) = true.
Proof. intros (prompt & _ & H & _). exact H. Qed.

Lemma Inv_Send_running s clk : isProcessing (world s) = true -> step s (Send clk) = ([], s).
Proof.
  intros H. unfold step, settle.
  rewrite exec_handleSend_rejected by (rewrite H; apply orb_true_r).
  destruct s; reflexivity.
Qed.

Lemma Inv_Send_idle s clk : Inv s -> IdleState s -> Inv (snd (step s (Send clk))).
Proof.
  intros (Hs & Hm & _) (Ht & Hp & Hst).
  destruct (blank (input (world s))) eqn:Hb.
  - unfold step, settle.
    rewrite exec_handleSend_rejected by (rewrite Hb; reflexivity).
    simpl. split; [exact Hs|]. split; [exact Hm|]. left. repeat split; assumption.
  - destruct s as [[inp pr msgs ss] ts]. simpl in *. subst ts pr.
    destruct (shape_initial _ Hs) as (a & b & c & d & ->).
    unfold step, handleSend.
    cbn [bind exec getInput getIsProcessing input isProcessing world timers].
    rewrite trim_truthy_iff, Hb.
    cbn -[JS.toString String.append continuation].
    split; [reflexivity|]. split.
    + apply Forall_app. split; [exact Hm|]. constructor; [|constructor].
      intros E. discriminate E.
    + right; left. exists inp. repeat split.
Qed.

Lemma Inv_Timer_running n s i clk :
  (1 <= n <= 4)%nat -> Inv s -> RunningState n s ->
  Inv (snd (step s (Timer i clk))).
Proof.
  intros Hn (Hs & Hm & Hc) (prompt & Ht & Hp & Hst).
  destruct s as [[inp pr msgs ss] ts]. simpl in *. subst ts pr.
  destruct i as [|i].
  2:{ unfold step. simpl. destruct i; simpl; repeat split; assumption. }
  destruct (steps_of_statuses _ _ Hs Hst) as (a & b & c & d & El & ->).
  clear Hs Hst Hc.
  destruct n as [|[|[|[|[|n]]]]]; try lia;
    injection El as <- <- <- <-;
    unfold step; cbn -[JS.toString String.append];
    (split; [reflexivity|]);
    (split;
     [ repeat (apply Forall_app; split);
       try exact Hm; (constructor; [|constructor]); intros E;
       try discriminate E; right; reflexivity
     | ]).
  - right; right; left. exists prompt. repeat split.
  - right; right; right; left. exists prompt. repeat split.
  - right; right; right; right. exists prompt. repeat split.
  - left. repeat split. right. reflexivity.
Qed.

Lemma Inv_step s e : Inv s -> Inv (snd (step s e)).
Proof.
  intros H. destruct e as [v|clk|i clk].
  - apply Inv_Change, H.
  - destruct H as (Hs & Hm & [Hc|Hc]).
    + apply Inv_Send_idle; [|exact Hc]. repeat split; auto.
    + rewrite Inv_Send_running.
      * repeat split; auto.
      * destruct Hc as [Hc|[Hc|[Hc|Hc]]]; exact (RunningState_processing _ _ Hc).
  - pose proof H as (Hs & Hm & [Hc|[Hc|[Hc|[Hc|Hc]]]]).
    + destruct Hc as (Ht & _). unfold step. rewrite Ht.
      destruct i; simpl; exact H.
    + apply (Inv_Timer_running 1); auto; lia.
    + apply (Inv_Timer_running 2); auto; lia.
    + apply (Inv_Timer_running 3); auto; lia.
    + apply (Inv_Timer_running 4); auto; lia.
Qed.

Lemma Inv_run es : forall s, Inv s -> Inv (snd (run s es)).
Proof.
  induction es as [|e es IH]; intros s H; simpl; [exact H|].
  pose proof (Inv_step s e H) as H'.
  destruct (step s e) as [tr s']. simpl in H'.
  specialize (IH s' H'). destruct (run s' es) as [tr' s'']. exact IH.
Qed.

Lemma Inv_initial t0 : Inv (initialSys t0).
Proof.
  split; [reflexivity|]. split.
  - constructor; [|constructor]. intros _. left. reflexivity.
  - left. repeat split. left. split; [reflexivity|].
    constructor; [|constructor]. discriminate.
Qed.

Lemma Inv_todoWorld : Inv (mkSys (todoWorld 0) []).
Proof.
  split; [reflexivity|]. split.
  - constructor; [|constructor]. intros _. left. reflexivity.
  - left. repeat split. left. split; [reflexivity|].
    constructor; [|constructor]. discriminate.
Qed.

(** C8, as the code has it: the page has no cancel entry point; its events
    are the change of the text field, [handleSend] and the timers of
    [delay], and none of them stops a Run.  In every state reachable from
    the initial one: when [isProcessing] is false no timer is pending and
    the steps are all [pending] (and then no request was ever accepted) or
    all [completed]; when it is true exactly one timer is pending, the
    continuation of [simulateAgentProcess] after its [n]-th [await], and the
    steps are in the [n]-th stage; and the only Entries of type [status] in
    the timeline are the initial banner and the deployment notice. *)
Theorem run_cannot_be_cancelled (t0 : Z) (es : list Event) :
  let s := snd (run (initialSys t0) es) in
  (isProcessing (world s) = false ->
     timers s = [] /\
     (statuses (steps (world s)) = [pending; pending; pending; pending] /\
      Forall (fun m => Message.role m <> user) (messages (world s))
      \/ statuses (steps (world s))
         = [completed; completed; completed; completed])) /\
  (isProcessing (world s) = true ->
     exists n prompt,
       (1 <= n <= 4)%nat /\
       timers s = [(delayAt n, continuation n prompt)] /\
       statuses (steps (world s)) = stageStatuses n) /\
  Forall knownStatusEntry (messages (world s)).
Proof.
  intros s. destruct (Inv_run es _ (Inv_initial t0)) as (Hs & Hm & Hc).
  fold s in Hs, Hm, Hc.
  split; [|split; [|exact Hm]].
  - intros Hp. destruct Hc as [(Ht & _ & H)|Hc]; [split; assumption|].
    destruct Hc as [Hc|[Hc|[Hc|Hc]]];
      apply RunningState_processing in Hc; congruence.
  - intros Hp. destruct Hc as [(_ & Hf & _)|Hc]; [congruence|].
    destruct Hc as [Hc|[Hc|[Hc|Hc]]]; destruct Hc as (prompt & Ht & _ & Hst).
    + exists 1%nat, prompt. repeat split; auto; lia.
    + exists 2%nat, prompt. repeat split; auto; lia.
    + exists 3%nat, prompt. repeat split; auto; lia.
    + exists 4%nat, prompt. repeat split; auto; lia.
Qed.

Lemma Inv_todoRunning : Inv todoRunning.
Proof. apply (Inv_step _ (Send (sameMs 10)) Inv_todoWorld). Qed.

Lemma user_entry_todoRunning :
  exists m, In m (messages (world todoRunning)) /\ Message.role m = user.
Proof. eexists. split; [right; left; reflexivity|reflexivity]. Qed.

Lemma appendOnly_extends tr : forall w,
  appendOnly w tr -> extends (messages w) (messages (lastWorld w tr)).
Proof.
  induction tr as [|o tr IH]; intros w H; simpl in *.
  - apply extends_refl.
  - destruct H as [Ho H]. exact (extends_trans _ _ _ Ho (IH _ H)).
Qed.

Lemma DisciplinedSys_todoRunning : DisciplinedSys todoRunning.
Proof.
  apply (step_Disciplined (mkSys (todoWorld 0) []) (Send (sameMs 10))).
  constructor.
Qed.

(** C8 as stated fails: from the scenario's running state (step 1 [active],
    steps 2 to 4 not started) no sequence of events ends the Run while a step
    is still [pending], and none appends a status Entry other than the
    deployment notice: there is nothing that cancels. *)
Lemma todo_run_not_cancellable :
  (~ exists es : list Event,
       let s := snd (run todoRunning es) in
       isProcessing (world s) = false /\
       In pending (statuses (steps (world s)))) /\
  (~ exists (es : list Event) (m : Message.t),
       let s := snd (run todoRunning es) in
       In m (messages (world s)) /\
       Message.type m = Some status /\
       Message.content m <> "Deploying to production environment..." /\
       Message.content m
         <> "AutoDeploy Agent v1.0 initialized. Ready for instructions.").
Proof.
  split.
  - intros (es & Hp & Hin).
    destruct (run_Disciplined es todoRunning DisciplinedSys_todoRunning)
      as (Ha & _ & Hw & _).
    apply appendOnly_extends in Ha. rewrite <- Hw in Ha.
    destruct (Inv_run es _ Inv_todoRunning) as (_ & _ & Hc).
    destruct Hc as [(_ & _ & [(_ & Hu)|Hst])|Hc].
    + destruct user_entry_todoRunning as (m & Hm & Hr).
      destruct Ha as [tl Ha]. rewrite Ha in Hu.
      apply Forall_app in Hu. destruct Hu as [Hu _].
      rewrite Forall_forall in Hu. exact (Hu m Hm Hr).
    + rewrite Hst in Hin. simpl in Hin.
      repeat destruct Hin as [Hin|Hin]; try discriminate Hin. exact Hin.
    + destruct Hc as [Hc|[Hc|[Hc|Hc]]];
        apply RunningState_processing in Hc; congruence.
  - intros (es & m & Hin & Ht & Hn1 & Hn2).
    destruct (Inv_run es _ Inv_todoRunning) as (_ & Hm & _).
    rewrite Forall_forall in Hm. destruct (Hm m Hin Ht); contradiction.
Qed.

(** ** The status chain of every step *)

Lemma forwardAll_refl l : forwardAll l l = true.
Proof.
  unfold forwardAll. rewrite Nat.eqb_refl. simpl.
  induction l as [|a l IH]; simpl; [reflexivity|].
  rewrite IH. destruct a; reflexivity.
Qed.

Lemma legalUpdate_same w w' : steps w' = steps w -> legalUpdate w w'.
Proof.
  intros E. unfold legalUpdate. rewrite E, forwardAll_refl. reflexivity.
Qed.

Lemma legal_step s e : Inv s -> chainOf legalUpdate (world s) (fst (step s e)).
Proof.
  intros (Hs & Hm & Hc). destruct e as [v|clk|i clk].
  - unfold step, settle. simpl. split; [|exact I].
    apply legalUpdate_same. reflexivity.
  - destruct (blank (input (world s)) || isProcessing (world s)) eqn:Hg.
    + unfold step, settle. rewrite exec_handleSend_rejected by exact Hg.
      exact I.
    + apply orb_false_iff in Hg. destruct Hg as [Hb Hp].
      destruct Hc as [(Ht & _ & Hst)|Hc].
      2:{ destruct Hc as [Hc|[Hc|[Hc|Hc]]];
            apply RunningState_processing in Hc; congruence. }
      destruct s as [[inp pr msgs ss] ts]. simpl in *. subst ts pr.
      assert (Hst' : statuses ss = [pending; pending; pending; pending] \/
                     statuses ss = [completed; completed; completed; completed])
        by (destruct Hst as [[H _]|H]; auto).
      unfold step, handleSend.
      cbn [bind exec getInput getIsProcessing input isProcessing world timers].
      rewrite trim_truthy_iff, Hb.
      destruct Hst' as [Hst'|Hst'];
        destruct (steps_of_statuses _ _ Hs Hst') as (a & b & c & d & El & ->);
        injection El as <- <- <- <-;
        cbn -[JS.toString String.append]; repeat split.
  - destruct (nth_error (timers s) i) as [[ms k]|] eqn:E.
    2:{ unfold step. rewrite E. exact I. }
    destruct Hc as [(Ht & _)|Hc]; [rewrite Ht in E; destruct i; discriminate E|].
    destruct s as [[inp pr msgs ss] ts]. simpl in *.
    destruct Hc as [Hc|[Hc|[Hc|Hc]]];
      destruct Hc as (prompt & Ht & Hp & Hst); simpl in *; subst ts pr;
      (destruct i as [|[|i]]; try discriminate E);
      destruct (steps_of_statuses _ _ Hs Hst) as (a & b & c & d & El & ->);
      injection El as <- <- <- <-;
      unfold step; cbn -[JS.toString String.append]; repeat split.
Qed.

Lemma legal_run es : forall s,
  Inv s -> DisciplinedSys s ->
  chainOf legalUpdate (world s) (fst (run s es)).
Proof.
  induction es as [|e es IH]; intros s H D; simpl; [exact I|].
  pose proof (legal_step s e H) as Hl.
  pose proof (Inv_step s e H) as Hi.
  destruct (step_Disciplined s e D) as (_ & _ & Hd & D').
  destruct (step s e) as [tr s']. simpl in *.
  specialize (IH s' Hi D'). destruct (run s' es) as [tr' s'']. simpl in *.
  apply chainOf_app; [exact Hl|]. rewrite <- Hd. exact IH.
Qed.

Lemma DisciplinedSys_run t0 es : DisciplinedSys (snd (run (initialSys t0) es)).
Proof. apply (run_Disciplined es (initialSys t0)). constructor. Qed.

(** C3: take any state [s] the page can reach in which no Run is in
    progress and the request is not blank.  In the Run that starts there,
    [steps] is not touched before the first [setSteps] (the reset that opens
    the Run), and from the reset on the successive statuses of each of the
    four steps are exactly [pending], then [active], then [completed]: no
    status is skipped and none is left for an earlier one.  Moreover, under
    any events whatsoever, every update of the state either moves each step
    along the chain (or leaves it) or is the reset opening a Run, which
    happens only when no step is [active].  The code never sets [failed]. *)
Theorem status_chain (t0 : Z) (es0 : list Event) (c0 c1 c2 c3 c4 : Clock)
    (es : list Event) :
  let s := snd (run (initialSys t0) es0) in
  isProcessing (world s) = false ->
  blank (input (world s)) = false ->
  let tr := fst (run s (runEvents c0 c1 c2 c3 c4)) in
  (forall o, In o (beforeReset tr) -> steps (snd o) = steps (world s)) /\
  (forall i, (i < 4)%nat ->
     history i (fromReset tr) = [Some pending; Some active; Some completed]) /\
  chainOf legalUpdate (world s) (fst (run s es)).
Proof.
  intros s Hp Hb.
  pose proof (Inv_run es0 _ (Inv_initial t0)) as HI. fold s in HI.
  pose proof (DisciplinedSys_run t0 es0) as HD. fold s in HD.
  split; [|split]; [| |exact (legal_run es s HI HD)];
    destruct HI as (Hs & _ & Hc); clearbody s;
    (destruct Hc as [(Ht & _)|Hc];
     [|destruct Hc as [Hc|[Hc|[Hc|Hc]]];
       apply RunningState_processing in Hc; congruence]);
    destruct s as [w ts]; simpl in *; subst ts;
    idle_world w Hp Hb Hs; eval_run Hb.
  - cbn. intros o [<-|[<-|[<-|[]]]]; reflexivity.
  - intros i Hi.
    destruct i as [|[|[|[|i]]]]; try lia; reflexivity.
Qed.

Lemma status_chain_witness :
  let s := snd (run (initialSys 0) [Change "build a todo app"]) in
  (isProcessing (world s) = false /\ blank (input (world s)) = false) /\
  history 2 (fromReset (fst (run s (runEvents (sameMs 10) (sameMs 1010)
                               (sameMs 2510) (sameMs 4510) (sameMs 6510)))))
  = [Some pending; Some active; Some completed].
Proof.
  split; [split; reflexivity|].
  exact (proj1 (proj2
    (status_chain 0 [Change "build a todo app"] (sameMs 10) (sameMs 1010)
       (sameMs 2510) (sameMs 4510) (sameMs 6510) [] eq_refl eq_refl)) 2%nat
    (le_S 3 3 (le_n 3))).
Defined.

(** ** What a Run writes and when

    These hold for any list of steps, not only the four of the page. *)

(** Evaluate a Run from a state whose steps are not known. *)
Ltac eval_any_run Hb :=
  unfold runEvents, run, step, handleSend;
  cbn [bind exec getInput getIsProcessing input isProcessing world timers];
  rewrite trim_truthy_iff, Hb;
  cbn -[JS.toString String.append shape runEntries].

(** X1: from any state with no Run in progress and a request that is not
    blank, a Run appends exactly six Entries, in this order: the request
    itself as typed (not trimmed), the analysis line quoting the request,
    the architecture line (type [code]), the code line, the deployment
    notice ([system], [status]) and the success Entry; each takes its id and
    its timestamp from two successive clock readings of its block.  The Run
    ends with the text field empty, [isProcessing] false and no timer
    pending. *)
Theorem run_timeline (w : World) (c0 c1 c2 c3 c4 : Clock) :
  isProcessing w = false ->
  blank (input w) = false ->
  let s' := snd (run (mkSys w []) (runEvents c0 c1 c2 c3 c4)) in
  messages (world s') = messages w ++ runEntries (input w) c0 c1 c2 c3 c4 /\
  input (world s') = EmptyString /\
  isProcessing (world s') = false /\
  timers s' = [].
Proof.
  intros Hp Hb. destruct w as [inp pr msgs ss]. simpl in Hp, Hb. subst pr.
  eval_any_run Hb.
  repeat split. unfold runEntries. rewrite <- !app_assoc. reflexivity.
Qed.

Lemma run_timeline_witness :
  (isProcessing (todoWorld 0) = false /\ blank (input (todoWorld 0)) = false) /\
  input (world (snd (todoRun 0 (sameMs 10) (sameMs 1010) (sameMs 2510)
                       (sameMs 4510) (sameMs 6510)))) = EmptyString.
Proof.
  split; [split; reflexivity|].
  exact (proj1 (proj2
    (run_timeline (todoWorld 0) (sameMs 10) (sameMs 1010) (sameMs 2510)
       (sameMs 4510) (sameMs 6510) eq_refl eq_refl))).
Defined.

(** X3: a Run never has two timers pending: before it starts there is none,
    after the accepted [handleSend] and after each of the first three timer
    blocks there is exactly one, of 1000, 1500, 2000 and 2000 milliseconds in
    that order, and after the fourth block there is none. *)
Theorem run_delays (w : World) (c0 c1 c2 c3 c4 : Clock) :
  isProcessing w = false ->
  blank (input w) = false ->
  map (fun k => pendingDelays
                  (snd (run (mkSys w []) (firstn k (runEvents c0 c1 c2 c3 c4)))))
      [0; 1; 2; 3; 4; 5]%nat
  = [[]; [1000]; [1500]; [2000]; [2000]; []].
Proof.
  intros Hp Hb. destruct w as [inp pr msgs ss]. simpl in Hp, Hb. subst pr.
  cbn [map firstn runEvents].
  unfold run, step, handleSend;
  cbn [bind exec getInput getIsProcessing input isProcessing world timers];
  rewrite trim_truthy_iff, Hb.
  cbn -[JS.toString String.append]. reflexivity.
Qed.

Lemma run_delays_witness :
  (isProcessing (todoWorld 0) = false /\ blank (input (todoWorld 0)) = false) /\
  pendingDelays (snd (run (mkSys (todoWorld 0) []) [Send (sameMs 10)]))
  = [1000].
Proof.
  split; [split; reflexivity|].
  exact (f_equal (fun l => nth 1 l [])
    (run_delays (todoWorld 0) (sameMs 10) (sameMs 1010) (sameMs 2510)
       (sameMs 4510) (sameMs 6510) eq_refl eq_refl)).
Defined.

(** ** Identifiers again: when they are distinct *)

Lemma toString_inj (a b : Z) : JS.toString a = JS.toString b -> a = b.
Proof.
  unfold JS.toString. intros H.
  assert (E : forall z, NilZero.int_of_string (NilZero.string_of_int (Z.to_int z))
                        = Some (Z.to_int z)).
  { intros z. apply NilZero.isi; destruct z; simpl; try discriminate;
      intros [= E]; exact (DecimalPos.Unsigned.to_uint_nonnil _ E). }
  pose proof (E a) as Ea. rewrite H, E in Ea. injection Ea as Ea.
  rewrite <- (DecimalZ.of_to a), <- (DecimalZ.of_to b). f_equal. symmetry. exact Ea.
Qed.

Lemma skipn_length_app {A} (l r : list A) : skipn (List.length l) (l ++ r) = r.
Proof. induction l as [|x l IH]; simpl; [reflexivity|exact IH]. Qed.

Lemma NoDup_map_inj {A B} (f : A -> B) (l : list A) :
  (forall a b, f a = f b -> a = b) -> NoDup l -> NoDup (map f l).
Proof.
  intros Hf H. induction H as [|x l Hx Hl IH]; simpl; constructor; [|exact IH].
  rewrite in_map_iff. intros (y & E & Hy). apply Hf in E. subst y. exact (Hx Hy).
Qed.

(** X4: the ids of the six Entries a Run appends are the decimal numerals
    of six clock readings (the first reading of each of the first four
    blocks, the first and the third of the last block), and they are
    pairwise distinct exactly when those six readings are. *)
Theorem run_ids (w : World) (c0 c1 c2 c3 c4 : Clock) :
  isProcessing w = false ->
  blank (input w) = false ->
  let s' := snd (run (mkSys w []) (runEvents c0 c1 c2 c3 c4)) in
  let appended := skipn (List.length (messages w)) (messages (world s')) in
  map Message.id appended = map JS.toString (idReadings c0 c1 c2 c3 c4) /\
  (NoDup (map Message.id appended) <-> NoDup (idReadings c0 c1 c2 c3 c4)).
Proof.
  intros Hp Hb s' appended.
  assert (E : map Message.id appended
              = map JS.toString (idReadings c0 c1 c2 c3 c4)).
  { subst appended s'. destruct w as [inp pr msgs ss].
    simpl in Hp, Hb. subst pr. eval_any_run Hb.
    rewrite <- !app_assoc. rewrite skipn_length_app. reflexivity. }
  split; [exact E|]. rewrite E. split.
  - apply NoDup_map_inv.
  - apply NoDup_map_inj. exact toString_inj.
Qed.

Lemma run_ids_witness :
  (isProcessing (todoWorld 0) = false /\ blank (input (todoWorld 0)) = false) /\
  map Message.id
    (skipn 1 (messages (world (snd (todoRun 0 (sameMs 10) (sameMs 1010)
                                      (sameMs 2510) (sameMs 4510) (sameMs 6510))))))
  = map JS.toString [10; 1010; 2510; 4510; 6510; 6510].
Proof.
  split; [split; reflexivity|].
  exact (proj1
    (run_ids (todoWorld 0) (sameMs 10) (sameMs 1010) (sameMs 2510)
       (sameMs 4510) (sameMs 6510) eq_refl eq_refl)).
Defined.

(** ** The send button and the Enter key *)

(** X7: whenever the send button is enabled, [handleSend] accepts: it
    appends the user Entry carrying the text field's content as typed,
    empties the text field, sets [isProcessing], leaves the step with id 1
    [active] and every other step [pending], and suspends on the timer of
    1000 ms. *)
Theorem send_enabled_starts_run (clk : Clock) (w : World) :
  sendDisabled w = false ->
  let r := exec handleSend clk 0 w in
  messages (final r) =
    messages w ++ [Message.mk (JS.toString (clk 0%nat)) user (input w)
                     (clk 1%nat) (Some text)] /\
  input (final r) = EmptyString /\
  isProcessing (final r) = true /\
  statuses (steps (final r))
    = map (fun s => if String.eqb (Step.id s) "1" then active else pending)
          (steps w) /\
  exists k, outcome r = Suspended 1000 k.
Proof.
  intros H r. subst r. unfold sendDisabled in H.
  rewrite trim_truthy_iff, negb_involutive in H.
  apply orb_false_iff in H. destruct H as [Hb Hp].
  destruct w as [inp pr msgs ss]. simpl in Hp, Hb. subst pr.
  unfold handleSend.
  cbn [bind exec getInput getIsProcessing input isProcessing].
  rewrite trim_truthy_iff, Hb.
  cbn -[JS.toString String.append].
  repeat split.
  - unfold statuses. rewrite !map_map. apply map_ext. intros s. simpl.
    destruct (String.eqb (Step.id s) "1"); reflexivity.
  - eexists. reflexivity.
Qed.

Lemma send_enabled_starts_run_witness :
  sendDisabled (todoWorld 0) = false /\
  isProcessing (final (exec handleSend (sameMs 10) 0 (todoWorld 0))) = true.
Proof.
  split; [reflexivity|].
  exact (proj1 (proj2 (proj2
    (send_enabled_starts_run (sameMs 10) (todoWorld 0) eq_refl)))).
Defined.

(** X8: a key press changes the state exactly when the key is Enter and the
    send button is enabled; any other key press, and Enter while the button
    is disabled, returns at once and leaves the state as it was. *)
Theorem onKeyDown_effect (key : string) (clk : Clock) (w : World) :
  let r := exec (onKeyDown key) clk 0 w in
  (trace r <> [] <-> key = "Enter" /\ sendDisabled w = false) /\
  (trace r = [] -> final r = w /\ outcome r = Finished tt).
Proof.
  intros r. subst r. unfold onKeyDown.
  destruct (String.eqb_spec key "Enter") as [->|Hk].
  - destruct (sendDisabled w) eqn:Hd.
    + unfold sendDisabled in Hd.
      rewrite trim_truthy_iff, negb_involutive in Hd.
      rewrite (exec_handleSend_rejected clk 0 w Hd). simpl.
      split; [|intros _; split; reflexivity].
      split; [intros H; contradiction|intros [_ H]; discriminate H].
    + unfold sendDisabled in Hd.
      rewrite trim_truthy_iff, negb_involutive in Hd.
      apply orb_false_iff in Hd. destruct Hd as [Hb Hp].
      destruct w as [inp pr msgs ss]. simpl in Hp, Hb. subst pr.
      unfold handleSend.
      cbn [bind exec getInput getIsProcessing input isProcessing].
      rewrite trim_truthy_iff, Hb.
      cbn -[JS.toString String.append].
      split; [|intros H; discriminate H].
      split; [intros _; split; reflexivity|intros _ H; discriminate H].
  - simpl. split; [|intros _; split; reflexivity].
    split; [intros H; contradiction|intros [H _]; contradiction].
Qed.

(** ** [updateStep] composed with itself *)

(** X11: two [updateStep] calls on the same id amount to the second one:
    the last status written wins. *)
Theorem updateStep_last_wins (id : string) (a b : Status) (clk : Clock)
    (n : nat) (w : World) :
  final (exec (updateStep id a ;; updateStep id b) clk n w)
  = final (exec (updateStep id b) clk n w).
Proof.
  destruct w as [inp pr msgs ss]. cbn. f_equal.
  rewrite map_map. apply map_ext. intros s.
  destruct (String.eqb (Step.id s) id) eqn:E; simpl; rewrite E; reflexivity.
Qed.

(** X12: [updateStep] calls on different ids commute. *)
Theorem updateStep_commute (id id' : string) (a b : Status) (clk : Clock)
    (n : nat) (w : World) :
  id <> id' ->
  final (exec (updateStep id a ;; updateStep id' b) clk n w)
  = final (exec (updateStep id' b ;; updateStep id a) clk n w).
Proof.
  intros H. destruct w as [inp pr msgs ss]. cbn. f_equal.
  rewrite !map_map. apply map_ext. intros s.
  destruct (String.eqb (Step.id s) id) eqn:E;
    destruct (String.eqb (Step.id s) id') eqn:E'; simpl;
    rewrite ?E, ?E'; try reflexivity.
  apply String.eqb_eq in E, E'. congruence.
Qed.

Lemma updateStep_commute_witness :
  "1" <> "2" /\
  statuses (steps (final (exec (updateStep "1" completed ;; updateStep "2" active)
                            (sameMs 0) 0 (initialWorld 0))))
  = statuses (steps (final (exec (updateStep "2" active ;; updateStep "1" completed)
                              (sameMs 0) 0 (initialWorld 0)))).
Proof.
  assert (H : "1" <> "2") by discriminate.
  split; [exact H|].
  exact (f_equal (fun w => statuses (steps w))
    (updateStep_commute "1" "2" completed active (sameMs 0) 0 (initialWorld 0) H)).
Defined.

(** ** What the page shows in the states it can reach *)

Lemma orderly_step s e :
  Inv s ->
  Forall (fun o => orderlyb (statuses (steps (snd o))) = true) (fst (step s e)).
Proof.
  intros (Hs & Hm & Hc).
  assert (Ho : orderlyb (statuses (steps (world s))) = true).
  { destruct Hc as [(_ & _ & [[H _]|H])|[Hc|[Hc|[Hc|Hc]]]];
      try (destruct Hc as (? & _ & _ & H)); rewrite H; reflexivity. }
  destruct e as [v|clk|i clk].
  - unfold step, settle. simpl. constructor; [exact Ho|constructor].
  - destruct (blank (input (world s)) || isProcessing (world s)) eqn:Hg.
    + unfold step, settle. rewrite exec_handleSend_rejected by exact Hg.
      constructor.
    + apply orb_false_iff in Hg. destruct Hg as [Hb Hp].
      destruct Hc as [(Ht & _ & Hst)|Hc].
      2:{ destruct Hc as [Hc|[Hc|[Hc|Hc]]];
            apply RunningState_processing in Hc; congruence. }
      destruct s as [[inp pr msgs ss] ts]. simpl in *. subst ts pr.
      assert (Hst' : statuses ss = [pending; pending; pending; pending] \/
                     statuses ss = [completed; completed; completed; completed])
        by (destruct Hst as [[H _]|H]; auto).
      unfold step, handleSend.
      cbn [bind exec getInput getIsProcessing input isProcessing world timers].
      rewrite trim_truthy_iff, Hb.
      destruct Hst' as [Hst'|Hst'];
        destruct (steps_of_statuses _ _ Hs Hst') as (a & b & c & d & El & ->);
        injection El as <- <- <- <-;
        cbn -[JS.toString String.append]; repeat constructor.
  - destruct (nth_error (timers s) i) as [[ms k]|] eqn:E.
    2:{ unfold step. rewrite E. constructor. }
    destruct Hc as [(Ht & _)|Hc]; [rewrite Ht in E; destruct i; discriminate E|].
    destruct s as [[inp pr msgs ss] ts]. simpl in *.
    destruct Hc as [Hc|[Hc|[Hc|Hc]]];
      destruct Hc as (prompt & Ht & Hp & Hst); simpl in *; subst ts pr;
      (destruct i as [|[|i]]; try discriminate E);
      destruct (steps_of_statuses _ _ Hs Hst) as (a & b & c & d & El & ->);
      injection El as <- <- <- <-;
      unfold step; cbn -[JS.toString String.append]; repeat constructor.
Qed.

(** X5: after every single state update of every execution of the page,
    the statuses are in pipeline order: [completed] steps first, then at most
    one [active] step, then [pending] steps; in particular no step is ever
    [failed] and no step is [completed] before an earlier one. *)
Theorem steps_stay_orderly (t0 : Z) (es : list Event) :
  Forall (fun o => orderlyb (statuses (steps (snd o))) = true)
         (fst (run (initialSys t0) es)).
Proof.
  assert (G : forall es s, Inv s ->
            Forall (fun o => orderlyb (statuses (steps (snd o))) = true)
                   (fst (run s es))).
  { clear. induction es as [|e es IH]; intros s H; simpl; [constructor|].
    pose proof (orderly_step s e H) as Ho.
    pose proof (Inv_step s e H) as Hi.
    destruct (step s e) as [tr s']. simpl in *.
    specialize (IH s' Hi). destruct (run s' es) as [tr' s'']. simpl in *.
    apply Forall_app. split; assumption. }
  apply G, Inv_initial.
Qed.

Lemma shapeKept_Forall tr : forall w,
  shapeKept w tr -> Forall (fun o => shape (steps (snd o)) = shape (steps w)) tr.
Proof.
  induction tr as [|o tr IH]; intros w H; [constructor|].
  destruct H as [Ho H]. constructor; [exact Ho|].
  specialize (IH _ H). rewrite Forall_forall in *. intros x Hx.
  rewrite (IH x Hx). exact Ho.
Qed.

Lemma stepKeys_of_shape w :
  shape (steps w) = shape initialSteps -> stepKeys w = ["1"; "2"; "3"; "4"].
Proof.
  intros H. destruct (shape_initial _ H) as (a & b & c & d & E).
  unfold stepKeys. rewrite E. reflexivity.
Qed.

Lemma NoDup_1234 : NoDup ["1"; "2"; "3"; "4"].
Proof.
  repeat constructor; simpl; intros H;
    repeat destruct H as [H|H]; try discriminate H; exact H.
Qed.

(** X6: the React keys of the step rows ([key={step.id}]) are pairwise
    distinct after every state update and in every state the page reaches. *)
Theorem step_keys_distinct (t0 : Z) (es : list Event) :
  let r := run (initialSys t0) es in
  Forall (fun o => NoDup (stepKeys (snd o))) (fst r) /\
  NoDup (stepKeys (world (snd r))).
Proof.
  intros r. split.
  - destruct (run_Disciplined es (initialSys t0)) as (_ & Hk & _); [constructor|].
    apply shapeKept_Forall in Hk. fold r in Hk.
    rewrite Forall_forall in *. intros o Ho.
    rewrite (stepKeys_of_shape _ (Hk o Ho)). exact NoDup_1234.
  - destruct (Inv_run es _ (Inv_initial t0)) as (Hs & _). fold r in Hs.
    rewrite (stepKeys_of_shape _ Hs). exact NoDup_1234.
Qed.

(** X9: in every state the page reaches, the row "Processing request..."
    is shown exactly when one step is highlighted as [active], and never
    more than one step is. *)
Theorem one_highlight_while_processing (t0 : Z) (es : list Event) :
  let w := world (snd (run (initialSys t0) es)) in
  List.length (filter stepHighlighted (steps w))
  = (if showsProcessing w then 1 else 0)%nat.
Proof.
  intros w. destruct (Inv_run es _ (Inv_initial t0)) as (Hs & _ & Hc).
  fold w in Hs. unfold showsProcessing.
  destruct Hc as [(_ & Hp & Hst)|Hc].
  - fold w in Hp, Hst. rewrite Hp.
    assert (Hst' : statuses (steps w) = [pending; pending; pending; pending] \/
                   statuses (steps w) = [completed; completed; completed; completed])
      by (destruct Hst as [[H _]|H]; auto).
    destruct Hst' as [H|H];
      destruct (steps_of_statuses _ _ Hs H) as (a & b & c & d & El & ->);
      injection El as <- <- <- <-; reflexivity.
  - destruct Hc as [Hc|[Hc|[Hc|Hc]]];
      destruct Hc as (prompt & _ & Hp & Hst); fold w in Hp, Hst; rewrite Hp;
      destruct (steps_of_statuses _ _ Hs Hst) as (a & b & c & d & El & ->);
      injection El as <- <- <- <-; reflexivity.
Qed.

(** X10: in every state the page reaches, the circles of the tracker show
    check icons on the first [k] steps and the numbers [k+1] to 4 on the
    others, for some [k] between 0 and 4. *)
Theorem badges_form_prefix (t0 : Z) (es : list Event) :
  let w := world (snd (run (initialSys t0) es)) in
  exists k, (k <= 4)%nat /\
    stepBadges w = repeat CheckCircle k ++ map Index (seq (k + 1) (4 - k)).
Proof.
  intros w. destruct (Inv_run es _ (Inv_initial t0)) as (Hs & _ & Hc).
  fold w in Hs. unfold stepBadges.
  destruct Hc as [(_ & _ & Hst)|Hc].
  - fold w in Hst. destruct Hst as [[H _]|H];
      destruct (steps_of_statuses _ _ Hs H) as (a & b & c & d & El & ->);
      injection El as <- <- <- <-.
    + exists 0%nat. split; [lia|reflexivity].
    + exists 4%nat. split; [lia|reflexivity].
  - destruct Hc as [Hc|[Hc|[Hc|Hc]]];
      destruct Hc as (prompt & _ & _ & Hst); fold w in Hst;
      destruct (steps_of_statuses _ _ Hs Hst) as (a & b & c & d & El & ->);
      injection El as <- <- <- <-.
    + exists 0%nat. split; [lia|reflexivity].
    + exists 1%nat. split; [lia|reflexivity].
    + exists 2%nat. split; [lia|reflexivity].
    + exists 3%nat. split; [lia|reflexivity].
Qed.

(** ** A Run is not disturbed by other events *)

Lemma run_cons_snd (s : Sys) (e : Event) (es : list Event) :
  snd (run s (e :: es)) = snd (run (snd (step s e)) es).
Proof.
  simpl. destruct (step s e) as [tr s']. simpl.
  destruct (run s' es) as [tr' s'']. reflexivity.
Qed.

Lemma run_app_snd (es1 es2 : list Event) : forall s,
  snd (run s (es1 ++ es2)) = snd (run (snd (run s es1)) es2).
Proof.
  induction es1 as [|e es1 IH]; intros s; [reflexivity|].
  rewrite <- app_comm_cons, !run_cons_snd. apply IH.
Qed.

Lemma Blind_bind {A B} (m : Async A) (g : A -> Async B) :
  Blind m -> (forall a, Blind (g a)) -> Blind (bind m g).
Proof.
  intros Hm Hg. induction Hm; simpl; try (constructor; auto). apply Hg.
Qed.

Lemma Blind_simulateAgentProcess (prompt : string) :
  Blind (simulateAgentProcess prompt).
Proof.
  unfold simulateAgentProcess.
  repeat (apply Blind_bind; [|intros _]); repeat constructor.
Qed.

Lemma exec_Blind {A} (p : Async A) :
  Blind p -> forall clk n w w',
  isProcessing w = isProcessing w' ->
  messages w = messages w' ->
  steps w = steps w' ->
  let r := exec p clk n w in
  let r' := exec p clk n w' in
  isProcessing (final r) = isProcessing (final r') /\
  messages (final r) = messages (final r') /\
  steps (final r) = steps (final r') /\
  outcome r = outcome r' /\
  forall ms k, outcome r = Suspended ms k -> Blind k.
Proof.
  induction 1; intros clk n w w' Hp Hm Hs; simpl.
  - repeat split; auto. discriminate.
  - apply IHBlind; assumption.
  - apply IHBlind; simpl; auto.
  - apply IHBlind; simpl; auto. rewrite Hm. reflexivity.
  - apply IHBlind; simpl; auto. rewrite Hs. reflexivity.
  - apply H0; assumption.
  - repeat split; auto. intros ms0 k0 E. injection E as <- <-. assumption.
Qed.

Lemma Blind_resume (p : Async unit) : Blind p -> Blind (resume p).
Proof.
  intros H. unfold resume.
  destruct (exec_Blind p H (fun _ => 0) 0%nat (initialWorld 0) (initialWorld 0)
              eq_refl eq_refl eq_refl) as (_ & _ & _ & _ & Hk).
  destruct (outcome (exec p (fun _ => 0) 0%nat (initialWorld 0))) as [u|ms k].
  - constructor.
  - exact (Hk ms k eq_refl).
Qed.

Lemma Blind_continuation (n : nat) (prompt : string) :
  Blind (continuation n prompt).
Proof.
  unfold continuation. induction n as [|n IH]; simpl.
  - apply Blind_simulateAgentProcess.
  - apply Blind_resume, IH.
Qed.

Lemma agree_refl s : agree s s.
Proof. repeat split. Qed.

Lemma agree_trans s1 s2 s3 : agree s1 s2 -> agree s2 s3 -> agree s1 s3.
Proof.
  intros (a & b & c & d) (a' & b' & c' & d'). repeat split; congruence.
Qed.

Lemma noise_step (s : Sys) (e : Event) (t : Z * Async unit) :
  noise e = true -> isProcessing (world s) = true -> timers s = [t] ->
  agree s (snd (step s e)).
Proof.
  intros Hn Hp Ht. destruct e as [v|clk|i clk].
  - unfold step, settle. simpl. repeat split.
  - unfold step, settle.
    rewrite exec_handleSend_rejected by (rewrite Hp; apply orb_true_r).
    simpl. repeat split.
  - destruct i as [|i]; [discriminate Hn|].
    unfold step. rewrite Ht. simpl. destruct i; apply agree_refl.
Qed.

Lemma noise_run (ns : list Event) (t : Z * Async unit) : forall s,
  Forall (fun e => noise e = true) ns ->
  isProcessing (world s) = true -> timers s = [t] ->
  agree s (snd (run s ns)).
Proof.
  induction ns as [|e ns IH]; intros s Hn Hp Ht; [apply agree_refl|].
  inversion Hn as [|? ? He Hns]; subst.
  rewrite run_cons_snd.
  pose proof (noise_step s e t He Hp Ht) as Ha.
  apply (agree_trans _ _ _ Ha). apply IH; [exact Hns| |].
  - destruct Ha as (_ & <- & _). exact Hp.
  - destruct Ha as (<- & _). exact Ht.
Qed.

Lemma timer_agree (u d : Sys) (ms : Z) (k : Async unit) (clk : Clock) :
  agree u d -> timers u = [(ms, k)] -> Blind k ->
  agree (snd (step u (Timer 0 clk))) (snd (step d (Timer 0 clk))).
Proof.
  intros (Ht & Hp & Hm & Hs) Hu Hk. unfold step.
  rewrite <- Ht, Hu. simpl.
  destruct (exec_Blind k Hk clk 0%nat (world u) (world d) Hp Hm Hs)
    as (Hp' & Hm' & Hs' & Ho & _).
  unfold settle. rewrite <- Ho.
  destruct (outcome (exec k clk 0 (world u))); simpl; repeat split; assumption.
Qed.

Lemma round (u d : Sys) (ns : list Event) (clk : Clock) (n : nat)
    (prompt : string) :
  agree u d ->
  isProcessing (world u) = true ->
  timers u = [(delayAt n, continuation n prompt)] ->
  Forall (fun e => noise e = true) ns ->
  agree (snd (step u (Timer 0 clk))) (snd (run d (ns ++ [Timer 0 clk]))).
Proof.
  intros Ha Hp Ht Hn. rewrite run_app_snd, run_cons_snd. simpl run. simpl snd.
  apply (timer_agree u _ (delayAt n) (continuation n prompt) clk);
    [|exact Ht|apply Blind_continuation].
  apply (agree_trans _ _ _ Ha).
  apply (noise_run ns (delayAt n, continuation n prompt)); [exact Hn| |].
  - destruct Ha as (_ & <- & _). exact Hp.
  - destruct Ha as (<- & _). exact Ht.
Qed.

Lemma stage_states (w : World) (c0 c1 c2 c3 : Clock) :
  isProcessing w = false ->
  blank (input w) = false ->
  let u1 := snd (step (mkSys w []) (Send c0)) in
  let u2 := snd (step u1 (Timer 0 c1)) in
  let u3 := snd (step u2 (Timer 0 c2)) in
  let u4 := snd (step u3 (Timer 0 c3)) in
  (isProcessing (world u1) = true /\
   timers u1 = [(delayAt 1, continuation 1 (input w))]) /\
  (isProcessing (world u2) = true /\
   timers u2 = [(delayAt 2, continuation 2 (input w))]) /\
  (isProcessing (world u3) = true /\
   timers u3 = [(delayAt 3, continuation 3 (input w))]) /\
  (isProcessing (world u4) = true /\
   timers u4 = [(delayAt 4, continuation 4 (input w))]).
Proof.
  intros Hp Hb. destruct w as [inp pr msgs ss]. simpl in Hp, Hb. subst pr.
  unfold step, handleSend.
  cbn [bind exec getInput getIsProcessing input isProcessing world timers].
  rewrite trim_truthy_iff, Hb.
  cbn -[JS.toString String.append]. repeat split.
Qed.

(** X2: deliver any changes of the text field, any further calls of
    [handleSend] and any firing of a timer that does not exist between the
    blocks of a Run: the Run ends with the same timeline, the same steps, the
    same [isProcessing] and the same timers as when it is left alone.  The
    request quoted in the narration is the one captured when the Run
    started. *)
Theorem run_undisturbed (w : World) (c0 c1 c2 c3 c4 : Clock)
    (n1 n2 n3 n4 : list Event) :
  isProcessing w = false ->
  blank (input w) = false ->
  Forall (fun e => noise e = true) (n1 ++ n2 ++ n3 ++ n4) ->
  let d := snd (run (mkSys w []) (disturbedRun c0 n1 c1 n2 c2 n3 c3 n4 c4)) in
  let u := snd (run (mkSys w []) (runEvents c0 c1 c2 c3 c4)) in
  timers d = timers u /\
  isProcessing (world d) = isProcessing (world u) /\
  messages (world d) = messages (world u) /\
  steps (world d) = steps (world u).
Proof.
  intros Hp Hb Hn d u.
  apply Forall_app in Hn. destruct Hn as [H1 Hn].
  apply Forall_app in Hn. destruct Hn as [H2 Hn].
  apply Forall_app in Hn. destruct Hn as [H3 H4].
  destruct (stage_states w c0 c1 c2 c3 Hp Hb)
    as ((P1 & T1) & (P2 & T2) & (P3 & T3) & (P4 & T4)).
  set (u1 := snd (step (mkSys w []) (Send c0))) in *.
  set (u2 := snd (step u1 (Timer 0 c1))) in *.
  set (u3 := snd (step u2 (Timer 0 c2))) in *.
  set (u4 := snd (step u3 (Timer 0 c3))) in *.
  assert (Eu : u = snd (step u4 (Timer 0 c4))).
  { subst u u4 u3 u2 u1. unfold runEvents. rewrite !run_cons_snd. reflexivity. }
  assert (Ed : d = snd (run (snd (run (snd (run (snd (run u1
                 (n1 ++ [Timer 0 c1])))
                 (n2 ++ [Timer 0 c2])))
                 (n3 ++ [Timer 0 c3])))
                 (n4 ++ [Timer 0 c4]))).
  { subst d u1. unfold disturbedRun. rewrite run_cons_snd.
    rewrite <- !run_app_snd. f_equal. rewrite <- !app_assoc. simpl. reflexivity. }
  pose proof (round u1 u1 n1 c1 1 (input w) (agree_refl u1) P1 T1 H1) as A2.
  fold u2 in A2.
  pose proof (round u2 _ n2 c2 2 (input w) A2 P2 T2 H2) as A3. fold u3 in A3.
  pose proof (round u3 _ n3 c3 3 (input w) A3 P3 T3 H3) as A4. fold u4 in A4.
  pose proof (round u4 _ n4 c4 4 (input w) A4 P4 T4 H4) as A5.
  rewrite <- Eu, <- Ed in A5.
  destruct A5 as (a & b & c & e). repeat split; symmetry; assumption.
Qed.

Lemma run_undisturbed_witness :
  let n := [Change "x"; Send (sameMs 20); Timer 3 (sameMs 30)] in
  (isProcessing (todoWorld 0) = false /\
   blank (input (todoWorld 0)) = false /\
   Forall (fun e => noise e = true) (n ++ n ++ [] ++ n)) /\
  messages (world (snd (run (mkSys (todoWorld 0) [])
                          (disturbedRun (sameMs 10) n (sameMs 1010) n
                             (sameMs 2510) [] (sameMs 4510) n (sameMs 6510)))))
  = messages (world (snd (todoRun 0 (sameMs 10) (sameMs 1010) (sameMs 2510)
                            (sameMs 4510) (sameMs 6510)))).
Proof.
  intros n.
  assert (Hn : Forall (fun e => noise e = true) (n ++ n ++ [] ++ n))
    by (repeat constructor).
  split; [repeat split; exact Hn|].
  exact (proj1 (proj2 (proj2
    (run_undisturbed (todoWorld 0) (sameMs 10) (sameMs 1010) (sameMs 2510)
       (sameMs 4510) (sameMs 6510) n n [] n eq_refl eq_refl Hn)))).
Defined.

(** ** The ledger of requests and answers *)

Lemma count_app p l r : count p (l ++ r) = (count p l + count p r)%nat.
Proof. unfold count. rewrite filter_app, length_app. reflexivity. Qed.

Lemma Ledger_same w w' :
  messages w' = messages w -> isProcessing w' = isProcessing w ->
  Ledger w -> Ledger w'.
Proof. unfold Ledger. intros -> ->. exact (fun H => H). Qed.

Lemma Ledger_step s e : Inv s -> Ledger (world s) -> Ledger (world (snd (step s e))).
Proof.
  intros (Hs & _ & Hc) HL. destruct e as [v|clk|i clk].
  - unfold step, settle. simpl. revert HL. apply Ledger_same; reflexivity.
  - destruct (blank (input (world s)) || isProcessing (world s)) eqn:Hg.
    + unfold step, settle. rewrite exec_handleSend_rejected by exact Hg.
      exact HL.
    + apply orb_false_iff in Hg. destruct Hg as [Hb Hp].
      destruct s as [[inp pr msgs ss] ts]. simpl in *. subst pr.
      destruct HL as [Hok Hn]. simpl in Hok, Hn.
      unfold step, handleSend.
      cbn [bind exec getInput getIsProcessing input isProcessing world timers].
      rewrite trim_truthy_iff, Hb.
      cbn -[JS.toString String.append]. split; simpl.
      * rewrite forallb_app, Hok. simpl. unfold entryOk. simpl. rewrite Hb. reflexivity.
      * rewrite !count_app, Hn. unfold count. simpl. lia.
  - destruct (nth_error (timers s) i) as [[ms k]|] eqn:E.
    2:{ unfold step. rewrite E. exact HL. }
    destruct Hc as [(Ht & _)|Hc]; [rewrite Ht in E; destruct i; discriminate E|].
    destruct s as [[inp pr msgs ss] ts]. simpl in *.
    destruct HL as [Hok Hn]. simpl in Hok, Hn.
    destruct Hc as [Hc|[Hc|[Hc|Hc]]];
      destruct Hc as (prompt & Ht & Hp & Hst); simpl in *; subst ts pr;
      (destruct i as [|[|i]]; try discriminate E);
      unfold step; cbn -[JS.toString count]; (split; simpl);
      rewrite ?forallb_app, ?count_app, ?Hok, ?Hn; unfold count; simpl; try reflexivity; try lia.
Qed.

Lemma Ledger_run (es : list Event) : forall s,
  Inv s -> Ledger (world s) -> Ledger (world (snd (run s es))).
Proof.
  induction es as [|e es IH]; intros s H HL; [exact HL|].
  rewrite run_cons_snd. apply IH.
  - apply Inv_step, H.
  - apply Ledger_step; assumption.
Qed.

Lemma Ledger_initial (t0 : Z) : Ledger (initialWorld t0).
Proof. split; reflexivity. Qed.

(** X13: every Entry of every timeline the page reaches has a defined type
    that fits its origin: [user] with [text], [agent] with [text] or [code],
    [system] with [status]; and no [user] Entry carries a blank request. *)
Theorem entries_well_formed (t0 : Z) (es : list Event) :
  Forall (fun m => entryOk m = true)
         (messages (world (snd (run (initialSys t0) es)))).
Proof.
  apply Forall_forall. apply forallb_forall.
  exact (proj1 (Ledger_run es _ (Inv_initial t0) (Ledger_initial t0))).
Qed.

(** X14: in every state the page reaches, every accepted request has been
    answered by exactly one success Entry, except the request of the Run in
    progress: the number of [user] Entries is the number of success Entries,
    plus one while [isProcessing] holds. *)
Theorem requests_answered (t0 : Z) (es : list Event) :
  let w := world (snd (run (initialSys t0) es)) in
  count isUserEntry (messages w)
  = (count isSuccessEntry (messages w) + (if isProcessing w then 1 else 0))%nat.
Proof.
  intros w.
  exact (proj2 (Ledger_run es _ (Inv_initial t0) (Ledger_initial t0))).
Qed.
